(** * Freya: the connection registry ([share/network/network.go]) and the
    game server's [Initialized] packet handler.

  The registry is a Go [map[uint16]*Session] guarded by a read/write lock,
  together with a running [uint16] index.  Sessions are heap objects that
  the registry, the event bus and the packet handlers all reach through
  pointers, so the embedding keeps an explicit heap of sessions and lets the
  registry map identities to heap addresses.  Every operation is a
  computation in a small state-and-trace monad: the state is the heap plus
  the registry, the trace records lock operations, sends, closes, log lines
  and published events in program order. *)

From stdpp Require Import base option list functions gmap strings fin_maps.
From Stdlib Require Import ZArith Lia.

Open Scope Z_scope.

(** ** Machine integers *)

Module u16.
Definition modulus : Z := 65536.

(** [uint16] arithmetic wraps around. *)
Definition wrap (z : Z) : Z := z mod modulus.

(** [x++] on a [uint16]. *)
Definition incr (z : Z) : Z := wrap (z + 1).

Definition in_range (z : Z) : Prop := 0 <= z < modulus.
End u16.

(** ** Data model *)

Module network.

(** A heap address of a [Session]; Go's [*Session]. *)
Abbreviation ptr := nat.

(** The accepted [net.Conn], reduced to the remote endpoint it reports. *)
Record Conn := mkConn {
  remote_ip : string;
  remote_port : Z
}.

(** [character.Character], reduced to the fields the handlers read. *)
Record Character := mkCharacter {
  Id : Z;
  Name : string
}.

(** The zero value [character.Character{}]. *)
Definition Character_zero : Character := mkCharacter 0 "".

(** [session.Data]: the flags and the account the registry reads and
    [VerifyUser] writes. *)
Record SessionData := mkData {
  Verified : bool;
  LoggedIn : bool;
  AccountId : Z;
  CharacterList : list Character
}.

(** The game server's per-session [context] (its mutex guards [char]). *)
Record context := mkContext {
  char : option Character
}.

(** [session.DataEx], an [any]: nil, a [*context], or something else. *)
Inductive DataExT :=
| DataEx_nil
| DataEx_context (ctx : context)
| DataEx_other.

(** [network.Session], with the fields the sources use. *)
Record Session := mkSession {
  socket : option Conn;
  UserIdx : Z;
  AuthKey : Z;
  Connected : bool;
  Data : SessionData;
  DataEx : DataExT
}.

(** The composite literal [Session{socket: socket}]: every other field has
    Go's zero value. *)
Definition Session_new (sock : option Conn) : Session :=
  mkSession sock 0 0 false (mkData false false 0 []) DataEx_nil.

Global Instance Session_inhabited : Inhabited Session :=
  populate (Session_new None).

(** Modelled from the spec: [Session.GetIp] is not among the sources; the
    spec lists a remote-endpoint address among a session's attributes, so
    it reads the address of the session's socket. *)
Definition GetIp (s : Session) : string :=
  match socket s with
  | Some c => remote_ip c
  | None => ""
  end.

(** An outbound packet: opcode and payload bytes. *)
Record Writer := mkWriter {
  Type_ : Z;
  buffer : list Z
}.

Global Instance Conn_eq_dec : EqDecision Conn.
Proof. solve_decision. Defined.
Global Instance Character_eq_dec : EqDecision Character.
Proof. solve_decision. Defined.
Global Instance SessionData_eq_dec : EqDecision SessionData.
Proof. solve_decision. Defined.
Global Instance context_eq_dec : EqDecision context.
Proof. solve_decision. Defined.
Global Instance DataExT_eq_dec : EqDecision DataExT.
Proof. solve_decision. Defined.
Global Instance Session_eq_dec : EqDecision Session.
Proof. solve_decision. Defined.
Global Instance Writer_eq_dec : EqDecision Writer.
Proof. solve_decision. Defined.

(** What an operation does that is visible outside the state. *)
Inductive Event :=
| EvRLock                       (* n.lock.RLock() *)
| EvRUnlock                     (* n.lock.RUnlock() *)
| EvLock                        (* n.lock.Lock() *)
| EvUnlock                      (* n.lock.Unlock() *)
| EvSend (p : ptr) (w : Writer) (* session.Send(writer): the socket write *)
| EvClose (p : ptr)             (* session.Close() *)
| EvLogError (msg : string) (args : list Z)
                                (* log.Error / log.Errorf and its numbers *)
| EvConnect (p : ptr)           (* event.Trigger(ClientConnectEvent, &session) *)
| EvStart (p : ptr)             (* go session.Start(...) *)
| EvRPC (call : string)         (* g_RPCHandler.Call(...) *)
| EvCtxLock (p : ptr)           (* ctx.mutex.Lock() of a session's context *)
| EvCtxUnlock (p : ptr).        (* ctx.mutex.Unlock() *)

Global Instance Event_eq_dec : EqDecision Event.
Proof. solve_decision. Defined.

(** The process state the registry code touches: the heap of sessions (what
    each address holds, and the next address to hand out), [n.clients] and
    [n.userIdx]. *)
Record World := mkWorld {
  heap : ptr → Session;
  next : ptr;
  clients : gmap Z ptr;
  userIdx : Z
}.

(** Dereferencing a session pointer. *)
Definition deref (w : World) (p : ptr) : Session := heap w p.

(** ** The state-and-trace monad *)

Definition M (A : Type) : Type := World → A * World * list Event.

Global Instance M_ret : MRet M := λ A a w, (a, w, []).
Global Instance M_bind : MBind M := λ A B f m w,
  let '(a, w1, t1) := m w in
  let '(b, w2, t2) := f a w1 in
  (b, w2, t1 ++ t2).

Definition emit (e : Event) : M unit := λ w, (tt, w, [e]).
Definition get : M World := λ w, (w, w, []).
Definition put (w' : World) : M unit := λ _, (tt, w', []).

Definition result {A} (r : A * World * list Event) : A := r.1.1.
Definition final {A} (r : A * World * list Event) : World := r.1.2.
Definition trace {A} (r : A * World * list Event) : list Event := r.2.

(** Allocation of a fresh session object. *)
Definition alloc (s : Session) : M ptr := λ w,
  (next w,
   mkWorld (<[next w := s]> (heap w)) (S (next w)) (clients w) (userIdx w),
   []).

(** Assignment through a session pointer. *)
Definition store (p : ptr) (f : Session → Session) : M unit := λ w,
  (tt, mkWorld (alter f p (heap w)) (next w) (clients w) (userIdx w), []).

Definition load (p : ptr) : M Session := λ w, (deref w p, w, []).

Definition set_clients (c : gmap Z ptr) : M unit := λ w,
  (tt, mkWorld (heap w) (next w) c (userIdx w), []).
Definition set_userIdx (i : Z) : M unit := λ w,
  (tt, mkWorld (heap w) (next w) (clients w) i, []).

(** Field updates of a session. *)
Definition with_UserIdx (i : Z) (s : Session) : Session :=
  mkSession (socket s) i (AuthKey s) (Connected s) (Data s) (DataEx s).
Definition with_Connected (b : bool) (s : Session) : Session :=
  mkSession (socket s) (UserIdx s) (AuthKey s) b (Data s) (DataEx s).
Definition with_Data (d : SessionData) (s : Session) : Session :=
  mkSession (socket s) (UserIdx s) (AuthKey s) (Connected s) d (DataEx s).
Definition with_DataEx (x : DataExT) (s : Session) : Session :=
  mkSession (socket s) (UserIdx s) (AuthKey s) (Connected s) (Data s) x.

(** Modelled from the spec: [Session.Send] is not among the sources; the
    spec's send is the write of the packet to the session's socket, kept
    here as one trace event naming the session and the packet. *)
Definition Send (p : ptr) (w : Writer) : M unit := emit (EvSend p w).

(** Modelled from the spec: [Session.Close] is not among the sources; the
    spec's close takes the session out of the connected state and closing
    again changes nothing more.  Removal from the registry is the
    disconnect handler's work, see [onClientDisconnect]. *)
Definition Close (p : ptr) : M unit :=
  store p (with_Connected false) ;; emit (EvClose p).

(** Modelled from the spec: [Session.Start] is not among the sources; the
    spec's session becomes active, that is connected, once its read loop has
    been started. *)
Definition Start (p : ptr) : M unit := store p (with_Connected true).

(** ** The registry: [share/network/network.go] *)

Definition RLock : M unit := emit EvRLock.
Definition RUnlock : M unit := emit EvRUnlock.
Definition Lock : M unit := emit EvLock.
Definition Unlock : M unit := emit EvUnlock.

(** The state [Init] sets up before it starts to accept: an empty map and
    [userIdx = 0]; no session has been allocated yet. *)
Definition Init_world : World := mkWorld (λ _, Session_new None) 0 ∅ 0.

(** What [l.Accept()] hands back: a connection, or an error and no
    connection. *)
Inductive AcceptResult :=
| AcceptOk (c : Conn)
| AcceptErr (msg : string).

Definition accepted_socket (a : AcceptResult) : option Conn :=
  match a with
  | AcceptOk c => Some c
  | AcceptErr _ => None
  end.

(** How one pass through the body of the accept loop ends.  [Spinning] is
    not an exit of the Go code: it says that the inner search loop was still
    running, with the write lock held, when the fuel ran out. *)
Inductive AcceptOutcome :=
| Accepted (session : ptr)
| Dropped (session : ptr)
| Spinning (session : ptr).

(** The inner loop [for n.clients[n.userIdx] != nil { n.userIdx++ }].
    [fuel] bounds the number of increments; the result tells whether the loop
    condition became false. *)
Fixpoint skip_used (fuel : nat) : M bool :=
  w ← get ;
  match clients w !! userIdx w with
  | None => mret true
  | Some _ =>
      match fuel with
      | O => mret false
      | S fuel' => set_userIdx (u16.incr (userIdx w)) ;; skip_used fuel'
      end
  end.

(** Lines 81-91 of [Init]: insert under the write lock, publish, start. *)
Definition add_session (session : ptr) : M AcceptOutcome :=
  Lock ;;
  w ← get ;
  set_clients (<[userIdx w := session]> (clients w)) ;;
  store session (with_UserIdx (userIdx w)) ;;
  set_userIdx (u16.incr (userIdx w)) ;;
  Unlock ;;
  emit (EvConnect session) ;;
  emit (EvStart session) ;;
  mret (Accepted session).

(** One pass through the body of the accept loop of [Init] (lines 45-92). *)
Definition Init_accept (fuel : nat) (a : AcceptResult) : M AcceptOutcome :=
  match a with
  | AcceptErr msg => emit (EvLogError ("Error accepting: " +:+ msg) [])
  | AcceptOk _ => mret tt
  end ;;
  session ← alloc (Session_new (accepted_socket a)) ;
  RLock ;;
  w ← get ;
  match clients w !! userIdx w with
  | Some _ =>
      RUnlock ;;
      Lock ;;
      exited ← skip_used fuel ;
      if exited : bool then
        Unlock ;;
        RLock ;;
        w' ← get ;
        match clients w' !! userIdx w' with
        | Some _ =>
            RUnlock ;;
            emit (EvLogError "Can't find any available user indexes!" []) ;;
            Close session ;;
            mret (Dropped session)
        | None =>
            RUnlock ;;
            add_session session
        end
      else mret (Spinning session)
  | None =>
      RUnlock ;;
      add_session session
  end.

(** Go visits the entries of a map in an order it does not specify; every
    entry is visited once.  The operations that range over [n.clients] take
    the order of the visit as an argument. *)
Definition range_order (w : World) (order : list (Z * ptr)) : Prop :=
  order ≡ₚ map_to_list (clients w).

Fixpoint for_each {A} (l : list A) (body : A → M unit) : M unit :=
  match l with
  | [] => mret tt
  | x :: l' => body x ;; for_each l' body
  end.

(** [GetOnlineUsers]. *)
Definition GetOnlineUsers : M Z :=
  RLock ;;
  w ← get ;
  let users := Z.of_nat (size (clients w)) in
  RUnlock ;;
  mret users.

(** [GetSession]: the first visited session whose [UserIdx] is [idx]. *)
Definition GetSession (order : list (Z * ptr)) (idx : Z) : M (option ptr) :=
  RLock ;;
  w ← get ;
  match find (λ e, bool_decide (UserIdx (deref w e.2) = idx)) order with
  | Some (_, value) => RUnlock ;; mret (Some value)
  | None => RUnlock ;; mret None
  end.

(** The condition of [VerifyUser] on the session [n.clients[i]]. *)
Definition verify_ok (s : Session) (k : Z) (ip : string) : bool :=
  bool_decide (AuthKey s = k) && bool_decide (GetIp s = ip).

Definition set_verified (db_idx : Z) (s : Session) : Session :=
  with_Data (mkData true true db_idx (CharacterList (Data s))) s.

(** [VerifyUser]. *)
Definition VerifyUser (i : Z) (k : Z) (ip : string) (db_idx : Z) : M bool :=
  Lock ;;
  w ← get ;
  match clients w !! i with
  | Some p =>
      if verify_ok (deref w p) k ip then
        store p (set_verified db_idx) ;;
        Unlock ;;
        mret true
      else Unlock ;; mret false
  | None => Unlock ;; mret false
  end.

(** [SendToUser]. *)
Definition SendToUser (i : Z) (writer : Writer) : M bool :=
  RLock ;;
  w ← get ;
  match clients w !! i with
  | Some session =>
      if Connected (deref w session) then
        Send session writer ;;
        RUnlock ;;
        mret true
      else RUnlock ;; mret false
  | None => RUnlock ;; mret false
  end.

(** [SendToAll]. *)
Definition SendToAll (order : list (Z * ptr)) (writer : Writer) : M unit :=
  RLock ;;
  for_each order (λ e, Send e.2 writer) ;;
  RUnlock.

(** [SendToAllExcept]: [s == session] compares pointers. *)
Definition SendToAllExcept (order : list (Z * ptr)) (writer : Writer)
    (session : option ptr) : M unit :=
  RLock ;;
  for_each order (λ e,
    if bool_decide (Some e.2 = session) then mret tt else Send e.2 writer) ;;
  RUnlock.

(** The condition of [IsOnline] on one session. *)
Definition online_as (account : Z) (s : Session) : bool :=
  bool_decide (AccountId (Data s) = account)
  && Verified (Data s) && LoggedIn (Data s).

(** [IsOnline].  The constant [INVALID_USER_INDEX] is declared outside the
    sources at hand; the function returns it as a [uint16]. *)
Definition IsOnline (INVALID_USER_INDEX : Z) (order : list (Z * ptr))
    (account : Z) : M Z :=
  RLock ;;
  w ← get ;
  match find (λ e, online_as account (deref w e.2)) order with
  | Some (_, s) =>
      let index := UserIdx (deref w s) in
      RUnlock ;;
      mret index
  | None => RUnlock ;; mret INVALID_USER_INDEX
  end.

(** [CloseUser]. *)
Definition CloseUser (order : list (Z * ptr)) (i : Z) : M bool :=
  RLock ;;
  w ← get ;
  match find (λ e, bool_decide (UserIdx (deref w e.2) = i)) order with
  | Some (_, session) =>
      Close session ;;
      RUnlock ;;
      mret true
  | None => RUnlock ;; mret false
  end.

(** The payload of an event: a session pointer, or a value of another type,
    which the type assertion of the handler rejects. *)
Inductive EventArg :=
| ArgSession (session : ptr)
| ArgOther.

(** [onClientDisconnect]. *)
Definition onClientDisconnect (event : EventArg) : M unit :=
  match event with
  | ArgOther => emit (EvLogError "Couldn't parse onClientDisconnect event!" [])
  | ArgSession session =>
      Lock ;;
      w ← get ;
      set_clients (delete (UserIdx (deref w session)) (clients w)) ;;
      Unlock
  end.

(** ** Runs of the registry

    The operations that change the registry or the sessions, as the
    processes around it issue them one after the other. *)

Inductive Op :=
| OpAccept (fuel : nat) (a : AcceptResult)
| OpDisconnect (event : EventArg)
| OpVerifyUser (i k : Z) (ip : string) (db_idx : Z)
| OpStart (session : ptr)
| OpClose (session : ptr).

(** A session pointer that some [alloc] has handed out. *)
Definition allocated (w : World) (p : ptr) : bool := bool_decide (p < next w)%nat.

(** One operation.  There is no next state when a pointer is used that was
    never allocated, and none when the accept loop is still inside its
    search: it holds the write lock and nothing else can run. *)
Definition step (o : Op) (w : World) : option World :=
  match o with
  | OpAccept fuel a =>
      let r := Init_accept fuel a w in
      match result r with
      | Spinning _ => None
      | _ => Some (final r)
      end
  | OpDisconnect (ArgSession p) =>
      if allocated w p
      then Some (final (onClientDisconnect (ArgSession p) w))
      else None
  | OpDisconnect ArgOther => Some (final (onClientDisconnect ArgOther w))
  | OpVerifyUser i k ip db_idx => Some (final (VerifyUser i k ip db_idx w))
  | OpStart p => if allocated w p then Some (final (Start p w)) else None
  | OpClose p => if allocated w p then Some (final (Close p w)) else None
  end.

Fixpoint run (ops : list Op) (w : World) : option World :=
  match ops with
  | [] => Some w
  | o :: ops' =>
      match step o w with
      | Some w' => run ops' w'
      | None => None
      end
  end.

(** The sessions present in the registry. *)
Definition sessions (w : World) : list ptr := (map_to_list (clients w)).*2.

(** The sends of a trace, in order. *)
Fixpoint sends (tr : list Event) : list (ptr * Writer) :=
  match tr with
  | [] => []
  | EvSend p pkt :: tr' => (p, pkt) :: sends tr'
  | _ :: tr' => sends tr'
  end.

(** Whether every send of a trace happens while no read lock of the registry
    is held; [held] counts the read locks held at the start. *)
Fixpoint sends_outside_rlock (held : nat) (tr : list Event) : bool :=
  match tr with
  | [] => true
  | EvRLock :: tr' => sends_outside_rlock (S held) tr'
  | EvRUnlock :: tr' => sends_outside_rlock (pred held) tr'
  | EvSend _ _ :: tr' =>
      match held with
      | O => sends_outside_rlock held tr'
      | S _ => false
      end
  | _ :: tr' => sends_outside_rlock held tr'
  end.

(** Whether every send of a trace happens while a read lock is held. *)
Fixpoint sends_inside_rlock (held : nat) (tr : list Event) : bool :=
  match tr with
  | [] => true
  | EvRLock :: tr' => sends_inside_rlock (S held) tr'
  | EvRUnlock :: tr' => sends_inside_rlock (pred held) tr'
  | EvSend _ _ :: tr' =>
      match held with
      | O => false
      | S _ => sends_inside_rlock held tr'
      end
  | _ :: tr' => sends_inside_rlock held tr'
  end.


(** What the accept loop logs before it looks at the registry. *)
Definition accept_log (a : AcceptResult) : list Event :=
  match a with
  | AcceptErr msg => [EvLogError ("Error accepting: " +:+ msg) []]
  | AcceptOk _ => []
  end.

(** The state after the session accepted from [a] has been allocated and
    registered under identity [k]. *)
Definition accepted_world (w : World) (a : AcceptResult) (k : Z) : World :=
  mkWorld
    (alter (with_UserIdx k) (next w)
       (<[next w := Session_new (accepted_socket a)]> (heap w)))
    (S (next w))
    (<[k := next w]> (clients w))
    (u16.incr k).

(** What the registry keeps true of itself: every entry points to an
    allocated session that carries the identity it is filed under, and the
    running index and the keys are [uint16] values. *)
Record registry_inv (w : World) : Prop := mkInv {
  inv_entry : ∀ i p, clients w !! i = Some p →
                     (p < next w)%nat ∧ UserIdx (deref w p) = i;
  inv_index : u16.in_range (userIdx w);
  inv_keys : ∀ i p, clients w !! i = Some p → u16.in_range i
}.

End network.

(** ** The game server's packet handlers: [cmd/gameserver/packet] *)

Module packet.
Import network.

(** The inbound packet of [Initialized], reduced to what the handler reads
    from it: one [int32], the character id. *)
Record Reader := mkReader {
  ReadInt32 : Z
}.

(** [character.DataRes], opaque here: it only feeds the reply packet. *)
Record DataRes := mkDataRes {
  serialized : list Z
}.

(** What the handler takes from the rest of the process: the server's
    settings, the two RPC calls, and the layout of the reply packet, which
    the handler fills field by field from the character and its data. *)
Class Backend := {
  ServerId : Z;
  LoadCharacters : Z → Z → list Character;
  LoadCharacterData : Z → Z → DataRes;
  InitializedPacket : Character → DataRes → Writer
}.

Definition with_CharacterList (l : list Character) (s : Session) : Session :=
  with_Data (mkData (Verified (Data s)) (LoggedIn (Data s))
                    (AccountId (Data s)) l) s.

Definition DataEx_is_nil (x : DataExT) : bool :=
  match x with
  | DataEx_nil => true
  | _ => false
  end.

(** The loop that fetches the character: the first entry of the list whose
    id is [charId], the zero character when there is none. *)
Definition fetch_character (l : list Character) (charId : Z) : Character :=
  match find (λ data, bool_decide (Id data = charId)) l with
  | Some data => data
  | None => Character_zero
  end.

(** [Initialized]. *)
Definition Initialized `{Backend} (session : ptr) (reader : Reader) : M unit :=
  let charId := ReadInt32 reader in
  s ← load session ;
  if negb (Verified (Data s)) || negb (LoggedIn (Data s))
     || DataEx_is_nil (DataEx s)
  then emit (EvLogError "User is not verified (char: %d)" [charId])
  else
    match DataEx s with
    | DataEx_context ctx =>
        if bool_decide (Z.shiftr charId 3 ≠ AccountId (Data s)) then
          emit (EvLogError
                  "User is using invalid character id (id: %d, char: %d)"
                  [AccountId (Data s); charId])
        else
          (if bool_decide (length (CharacterList (Data s)) = 0%nat) then
             emit (EvRPC "LoadCharacters") ;;
             store session
               (with_CharacterList
                  (LoadCharacters (AccountId (Data s)) ServerId))
           else mret tt) ;;
          s' ← load session ;
          let c := fetch_character (CharacterList (Data s')) charId in
          if bool_decide (Id c ≠ charId) then
            emit (EvLogError
                    "User is using invalid character id (id: %d, char: %d)"
                    [AccountId (Data s'); charId])
          else
            emit (EvRPC "LoadCharacterData") ;;
            let res := LoadCharacterData ServerId (Id c) in
            Send session (InitializedPacket c res) ;;
            emit (EvCtxLock session) ;;
            store session (with_DataEx (DataEx_context (mkContext (Some c)))) ;;
            emit (EvCtxUnlock session)
    | _ =>
        emit (EvLogError "Unable to retrieve user context (id: %d)"
                [AccountId (Data s)])
    end.

End packet.

(** ** Concrete runs *)

Module scenario.
Import network.

Definition conn0 : Conn := mkConn "10.0.0.1" 4000.
Definition pkt0 : Writer := mkWriter 1 [].

(** An accept of a connection from [conn0]; it is given no fuel, so it
    succeeds only when the running index itself is free. *)
Definition accept0 : Op := OpAccept 0 (AcceptOk conn0).

(** [n] connections accepted one after the other, none of them leaving. *)
Definition accept_many (n : nat) : World :=
  Nat.iter n (λ w, final (Init_accept 0 (AcceptOk conn0) w)) Init_world.

(** All 65536 identities in use. *)
Definition full_world : World := accept_many (Z.to_nat u16.modulus).

(** Three connections, after which the first one leaves: identity 0 is free
    again and the running index is 3. *)
Definition churn_ops : list Op :=
  [accept0; accept0; accept0; OpDisconnect (ArgSession 0%nat)].
Definition churned : World := default Init_world (run churn_ops Init_world).

(** One connection whose read loop has started. *)
Definition started_ops : list Op := [accept0; OpStart 0%nat].
Definition started_world : World :=
  default Init_world (run started_ops Init_world).

(** The second of the three connections has been verified for account 7. *)
Definition verified_ops : list Op :=
  churn_ops ++ [OpVerifyUser 1 0 "10.0.0.1" 7].
Definition verified_world : World :=
  default Init_world (run verified_ops Init_world).

(** A game server whose account service knows no characters. *)
Definition backend0 : packet.Backend :=
  {| packet.ServerId := 1;
     packet.LoadCharacters := λ _ _, [];
     packet.LoadCharacterData := λ _ _, packet.mkDataRes [];
     packet.InitializedPacket := λ _ _, pkt0 |}.

End scenario.

(** ** The read/write lock as one flow of control uses it *)

Module locking.
Import network.

(** What one flow of control holds of [n.lock]. *)
Record Held := mkHeld {
  readers : nat;
  writing : bool
}.

Definition nothing_held : Held := mkHeld 0 false.

(** One lock operation of a flow that holds [h].  There is no next state
    when Go's [sync.RWMutex] would block the flow on itself for ever (a lock
    taken while the flow holds the write lock, the write lock taken while it
    holds a read lock) or would panic (an unlock of what is not held). *)
Definition lock_step (e : Event) (h : Held) : option Held :=
  match e with
  | EvRLock =>
      if writing h then None else Some (mkHeld (S (readers h)) false)
  | EvRUnlock =>
      match readers h with
      | O => None
      | S n => Some (mkHeld n (writing h))
      end
  | EvLock =>
      if writing h then None
      else match readers h with
           | O => Some (mkHeld 0 true)
           | S _ => None
           end
  | EvUnlock => if writing h then Some (mkHeld (readers h) false) else None
  | _ => Some h
  end.

Fixpoint lock_run (tr : list Event) (h : Held) : option Held :=
  match tr with
  | [] => Some h
  | e :: tr' =>
      match lock_step e h with
      | Some h' => lock_run tr' h'
      | None => None
      end
  end.

End locking.

(** ** More packet handlers: [Uninitialze] and [VerifyLinks] *)

Module links.
Import network.

(** Modelled from the spec: the methods of [network.Writer] are not among
    the sources.  [NewWriter] starts a packet of the given opcode with an
    empty payload and [WriteByte] appends one byte to the payload. *)
Definition NewWriter (code : Z) : Writer := mkWriter code [].
Definition WriteByte (b : Z) (w : Writer) : Writer :=
  mkWriter (Type_ w) (buffer w ++ [b]).

(** The conversion [int32(x)]. *)
Definition int32 (z : Z) : Z := (z + 2 ^ 31) mod 2 ^ 32 - 2 ^ 31.

(** The inbound packet of [Uninitialze]: the three values it reads and
    drops. *)
Record UninitialzeReader := mkUninitialzeReader {
  u_index : Z;
  u_map_id : Z;
  u_log_out : Z
}.

(** The inbound packet of [VerifyLinks], in the order it is read. *)
Record VerifyLinksReader := mkVerifyLinksReader {
  r_timestamp : Z;
  r_count : Z;
  r_channel : Z;
  r_server : Z;
  r_magickey : Z
}.

(** [account.VerifyReq], in the order of its fields in the handler's
    composite literal. *)
Record VerifyReq := mkVerifyReq {
  q_timestamp : Z;
  q_count : Z;
  q_server : Z;
  q_channel : Z;
  q_ip : string;
  q_account : Z
}.

(** What the two handlers take from the rest of the process: the opcodes,
    the configured magic key and the answer of the [UserVerify] RPC call
    (the field [Verified] of [account.VerifyRes]). *)
Class LinkBackend := {
  UNINITIALZE : Z;
  VERIFYLINKS : Z;
  MagicKey : Z;
  UserVerify : VerifyReq → bool
}.

(** [Uninitialze]. *)
Definition Uninitialze `{LinkBackend} (session : ptr)
    (reader : UninitialzeReader) : M unit :=
  let pkt := NewWriter UNINITIALZE in
  let pkt := WriteByte 0 pkt in
  Send session pkt.

(** [VerifyLinks]. *)
Definition VerifyLinks `{LinkBackend} (session : ptr)
    (reader : VerifyLinksReader) : M unit :=
  let timestamp := r_timestamp reader in
  let count := r_count reader in
  let channel := r_channel reader in
  let server := r_server reader in
  let magickey := r_magickey reader in
  s ← load session ;
  if bool_decide (magickey ≠ int32 MagicKey) then
    emit (EvLogError
            "Invalid MagicKey (Required: %d, detected: %d, id: %d, src: %s"
            [MagicKey; magickey; AccountId (Data s)])
  else
    let send :=
      mkVerifyReq timestamp count server channel (GetIp s)
        (AccountId (Data s)) in
    emit (EvRPC "UserVerify") ;;
    let recv := UserVerify send in
    let packet := NewWriter VERIFYLINKS in
    let packet := WriteByte channel packet in
    let packet := WriteByte server packet in
    let packet := if recv then WriteByte 1 packet else WriteByte 0 packet in
    Send session packet.

(** A packet that the dispatcher hands to one of the three handlers. *)
Inductive Handled :=
| HInitialized (session : ptr) (reader : packet.Reader)
| HUninitialze (session : ptr) (reader : UninitialzeReader)
| HVerifyLinks (session : ptr) (reader : VerifyLinksReader).

Definition handle `{packet.Backend} `{LinkBackend} (h : Handled) : M unit :=
  match h with
  | HInitialized session reader => packet.Initialized session reader
  | HUninitialze session reader => Uninitialze session reader
  | HVerifyLinks session reader => VerifyLinks session reader
  end.

End links.

(** ** Notification packets of the login server:
       [cmd/loginserver/packet/server.go] *)

Module wire.

(** One call of a method of [network.Writer], with the value it is given. *)
Inductive Field :=
| WByte (v : Z)
| WInt16 (v : Z)
| WUint16 (v : Z)
| WInt32 (v : Z)
| WUint32 (v : Z)
| WBytes (l : list Z)
| WString (s : string).

(** A packet under construction: the opcode given to [NewWriter] and the
    writer calls made since, in order. *)
Record Packet := mkPacket {
  code : Z;
  calls : list Field
}.

(** Modelled from the spec: the number of bytes a writer call appends.  The
    integer writers have the width their name states; a byte block and a
    string are appended as they are, which is also how [URLToClient] counts
    them. *)
Definition Field_size (f : Field) : Z :=
  match f with
  | WByte _ => 1
  | WInt16 _ | WUint16 _ => 2
  | WInt32 _ | WUint32 _ => 4
  | WBytes l => Z.of_nat (length l)
  | WString s => Z.of_nat (String.length s)
  end.

Definition payload_size (l : list Field) : Z :=
  foldr (λ f n, Field_size f + n) 0 l.

(** The URLs of [g_ServerConfig] that [URLToClient] sends. *)
Record URLConfig := mkURLConfig {
  CashWeb_URL : string;
  CashWeb_Odc_URL : string;
  CashWeb_Charge_URL : string;
  GuildWeb_URL : string;
  Sns_URL : string
}.



(** An entry of a server's channel list, and a server, as the [ServerList]
    RPC call returns them. *)
Record ChannelItem := mkChannelItem {
  ch_Id : Z;
  ch_CurrentUsers : Z;
  ch_MaxUsers : Z;
  ch_Ip : Z;
  ch_Port : Z;
  ch_Type : Z
}.

Record ServerItem := mkServerItem {
  sv_Id : Z;
  sv_Hot : Z;
  sv_List : list ChannelItem
}.

(** The body of the inner loop of [ServerSate]: the calls for one channel. *)
Definition channel_calls (c : ChannelItem) : list Field :=
  [ WByte (ch_Id c);
    WUint16 (ch_CurrentUsers c);
    WUint16 0;
    WUint16 65535;
    WUint16 0;
    WUint16 0;
    WUint32 0;
    WUint16 0;
    WUint16 0;
    WUint16 0;
    WByte 0;
    WByte 0;
    WByte 0;
    WByte 255;
    WUint16 (ch_MaxUsers c);
    WUint32 (ch_Ip c);
    WUint16 (ch_Port c);
    WUint32 (ch_Type c) ].

(** The body of the outer loop: the calls for one server. *)
Definition server_calls (sv : ServerItem) : list Field :=
  [ WByte (sv_Id sv);
    WByte (sv_Hot sv);
    WInt32 0;
    WByte (Z.of_nat (length (sv_List sv))) ]
  ++ concat (channel_calls <$> sv_List sv).

(** The packet that [ServerSate] builds from the list [s] that the
    [ServerList] RPC call returned. *)
Definition ServerSate (SERVERSTATE : Z) (s : list ServerItem) : Packet :=
  mkPacket SERVERSTATE
    (WByte (Z.of_nat (length s)) :: concat (server_calls <$> s)).

(** What a byte write leaves of the integer it is given. *)
Definition byte_value (v : Z) : Z := v mod 256.

(** Reading a [ServerSate] payload back: the count byte, then for each
    server its four header fields and as many channel blocks as its own
    count byte says. *)
Definition read_channel (l : list Field) : option (ChannelItem * list Field) :=
  match l with
  | WByte id :: WUint16 cur :: WUint16 _ :: WUint16 _ :: WUint16 _
    :: WUint16 _ :: WUint32 _ :: WUint16 _ :: WUint16 _ :: WUint16 _
    :: WByte _ :: WByte _ :: WByte _ :: WByte _
    :: WUint16 max :: WUint32 ip :: WUint16 port :: WUint32 ty :: rest =>
      Some (mkChannelItem id cur max ip port ty, rest)
  | _ => None
  end.

Fixpoint read_channels (n : nat) (l : list Field)
    : option (list ChannelItem * list Field) :=
  match n with
  | O => Some ([], l)
  | S n' =>
      match read_channel l with
      | Some (c, rest) =>
          match read_channels n' rest with
          | Some (cs, rest') => Some (c :: cs, rest')
          | None => None
          end
      | None => None
      end
  end.

Definition read_server (l : list Field) : option (ServerItem * list Field) :=
  match l with
  | WByte id :: WByte hot :: WInt32 _ :: WByte n :: rest =>
      match read_channels (Z.to_nat (byte_value n)) rest with
      | Some (cs, rest') => Some (mkServerItem id hot cs, rest')
      | None => None
      end
  | _ => None
  end.

Fixpoint read_servers (n : nat) (l : list Field)
    : option (list ServerItem * list Field) :=
  match n with
  | O => Some ([], l)
  | S n' =>
      match read_server l with
      | Some (sv, rest) =>
          match read_servers n' rest with
          | Some (svs, rest') => Some (sv :: svs, rest')
          | None => None
          end
      | None => None
      end
  end.

Definition read_ServerState (l : list Field) : option (list ServerItem) :=
  match l with
  | WByte n :: rest =>
      match read_servers (Z.to_nat (byte_value n)) rest with
      | Some (svs, []) => Some svs
      | _ => None
      end
  | _ => None
  end.

End wire.

(** ** More concrete runs *)

Module scenario_more.
Import network scenario.

(** A game server that knows the opcodes and one magic key, and whose
    account service verifies everybody. *)
Definition links0 : links.LinkBackend :=
  {| links.UNINITIALZE := 143;
     links.VERIFYLINKS := 141;
     links.MagicKey := 12345;
     links.UserVerify := λ _, true |}.

(** A game server whose account service knows one character, 56, of
    account 7. *)
Definition hero : Character := mkCharacter 56 "hero".
Definition backend1 : packet.Backend :=
  {| packet.ServerId := 1;
     packet.LoadCharacters := λ _ _, [hero];
     packet.LoadCharacterData := λ _ _, packet.mkDataRes [];
     packet.InitializedPacket := λ c _, mkWriter 142 [Id c] |}.

(** The verified session of [verified_world] with a game context attached. *)
Definition playing_world : World :=
  final (store 1%nat (with_DataEx (DataEx_context (mkContext None)))
           verified_world).


Definition urls0 : wire.URLConfig :=
  wire.mkURLConfig "http://cash" "http://odc" "" "http://guild" "http://sns".

Definition servers0 : list wire.ServerItem :=
  [ wire.mkServerItem 1 0
      [ wire.mkChannelItem 1 10 100 16777343 38101 0;
        wire.mkChannelItem 2 0 100 16777343 38102 0 ];
    wire.mkServerItem 2 16 [] ].

End scenario_more.

(** * Properties *)

Import network.

(** ** Running the monad *)

Ltac mrun :=
  repeat (unfold SendToUser, SendToAll, SendToAllExcept, VerifyUser, IsOnline,
            CloseUser, onClientDisconnect, GetSession, GetOnlineUsers,
            add_session, Close, Send, store, load, alloc, set_clients,
            set_userIdx, RLock, RUnlock, Lock, Unlock, emit, get, put,
            result, final, trace, deref, mbind, M_bind, mret, M_ret;
          cbn [fst snd heap next clients userIdx sends app]).

Section SendToUser.
Variables (w : World) (i : Z) (writer : Writer).

(** C6. [SendToUser i writer] always returns; it returns [true] and sends
    exactly [writer] to the session registered under [i] when that session
    has [Connected] set, and it returns [false] and sends nothing when no
    session is registered under [i] or the registered one has [Connected]
    unset.  The state is left as it was in all cases. *)
Theorem SendToUser_sends_iff_connected :
  let r := SendToUser i writer w in
  final r = w ∧
  (∀ session, clients w !! i = Some session →
     Connected (deref w session) = true →
     result r = true ∧ sends (trace r) = [(session, writer)]) ∧
  (clients w !! i = None ∨
   (∃ session, clients w !! i = Some session
               ∧ Connected (deref w session) = false) →
   result r = false ∧ sends (trace r) = []).
Proof.
  mrun. destruct (clients w !! i) as [p|] eqn:Hi.
  - destruct (Connected (heap w p)) eqn:Hc; cbn; split_and!; try done.
    + intros q [= <-] _. done.
    + intros [|(q & [= <-] & Hq)]; [done|congruence].
    + intros q [= <-]. congruence.
  - cbn. split_and!; try done.
Qed.

End SendToUser.

Section VerifyUser.
Variables (w : World) (i k : Z) (ip : string) (db_idx : Z).

(** C10. [VerifyUser i k ip db_idx] returns [true] exactly when a session is
    registered under [i] whose [AuthKey] is [k] and whose remote address is
    [ip]; it then sets [Verified], [LoggedIn] and [AccountId] of that session
    and touches nothing else.  When it returns [false] the state is left as it
    was. *)
Theorem VerifyUser_true_iff_key_and_ip_match :
  let r := VerifyUser i k ip db_idx w in
  (result r = true ↔
     ∃ p, clients w !! i = Some p
          ∧ AuthKey (deref w p) = k ∧ GetIp (deref w p) = ip) ∧
  (∀ p, clients w !! i = Some p → result r = true →
     let s' := deref (final r) p in
     Verified (Data s') = true ∧ LoggedIn (Data s') = true
     ∧ AccountId (Data s') = db_idx
     ∧ CharacterList (Data s') = CharacterList (Data (deref w p))
     ∧ (socket s', UserIdx s', AuthKey s', Connected s', DataEx s')
       = (socket (deref w p), UserIdx (deref w p), AuthKey (deref w p),
          Connected (deref w p), DataEx (deref w p))
     ∧ (∀ q, q ≠ p → deref (final r) q = deref w q)
     ∧ clients (final r) = clients w
     ∧ userIdx (final r) = userIdx w) ∧
  (result r = false → final r = w).
Proof.
  mrun. destruct (clients w !! i) as [p|] eqn:Hi; cbn.
  - unfold verify_ok.
    destruct (decide (AuthKey (heap w p) = k)) as [Hk|Hk];
      destruct (decide (GetIp (heap w p) = ip)) as [Hip|Hip];
      rewrite ?(bool_decide_true _ Hk), ?(bool_decide_false _ Hk),
        ?(bool_decide_true _ Hip), ?(bool_decide_false _ Hip); cbn.
    + split_and!; [split; eauto | | done].
      intros q [= <-] _. rewrite fn_lookup_alter. cbn. split_and!; try done.
      intros q Hq. by rewrite fn_lookup_alter_ne.
    + split_and!; [split; [done|] | done | done].
      intros (q & [= <-] & _ & ?). done.
    + split_and!; [split; [done|] | done | done].
      intros (q & [= <-] & ? & _). done.
    + split_and!; [split; [done|] | done | done].
      intros (q & [= <-] & ? & _). done.
  - split_and!; [split; [done|] | done | done].
    intros (q & ? & _). done.
Qed.

End VerifyUser.

Section Initialized.
Import packet.
Context `{Backend}.
Variables (w : World) (session : ptr) (reader : Reader).

(** C9. On a session whose [Verified] or [LoggedIn] flag is unset,
    [Initialized] writes one line to the error log and returns: it sends no
    packet, closes nothing, calls no RPC, and leaves the whole state, the
    session's payload included, as it was. *)
Theorem Initialized_rejects_unverified :
  Verified (Data (deref w session)) = false
  ∨ LoggedIn (Data (deref w session)) = false →
  let r := Initialized session reader w in
  trace r = [EvLogError "User is not verified (char: %d)" [ReadInt32 reader]]
  ∧ sends (trace r) = []
  ∧ final r = w
  ∧ deref (final r) session = deref w session.
Proof.
  intros Hflag. unfold Initialized. unfold deref in Hflag. mrun.
  assert (negb (Verified (Data (heap w session)))
          || negb (LoggedIn (Data (heap w session)))
          || DataEx_is_nil (DataEx (heap w session)) = true) as ->.
  { destruct Hflag as [-> | ->]; cbn; [done|].
    by rewrite orb_true_r. }
  done.
Qed.

End Initialized.

(** ** Removal and close *)

Lemma World_eta (w : World) :
  mkWorld (heap w) (next w) (clients w) (userIdx w) = w.
Proof. by destruct w. Qed.

Lemma onClientDisconnect_run (w : World) (session : ptr) :
  onClientDisconnect (ArgSession session) w
  = (tt,
     mkWorld (heap w) (next w)
       (delete (UserIdx (deref w session)) (clients w)) (userIdx w),
     [EvLock; EvUnlock]).
Proof. done. Qed.

Lemma VerifyUser_run (w : World) (i k : Z) (ip : string) (db_idx : Z) p :
  clients w !! i = Some p → verify_ok (deref w p) k ip = true →
  VerifyUser i k ip db_idx w
  = (true,
     mkWorld (alter (set_verified db_idx) p (heap w)) (next w) (clients w)
       (userIdx w),
     [EvLock; EvUnlock]).
Proof. intros Hi Hok. mrun. rewrite Hi. cbn. unfold deref in Hok. by rewrite Hok. Qed.

Lemma CloseUser_run (w : World) (order : list (Z * ptr)) (i : Z) :
  let r := CloseUser order i w in
  clients (final r) = clients w ∧ userIdx (final r) = userIdx w
  ∧ next (final r) = next w
  ∧ ((result r = false ∧ final r = w)
     ∨ (∃ p, result r = true ∧ UserIdx (deref w p) = i
             ∧ heap (final r) = alter (with_Connected false) p (heap w))).
Proof.
  mrun.
  destruct (find _ order) as [[j p]|] eqn:Hfind; cbn.
  - split_and!; try done. right. exists p. split_and!; try done.
    apply find_some in Hfind as [_ Hp]. by apply bool_decide_eq_true in Hp.
  - split_and!; try done. by left.
Qed.

Section Removal.
Variables (w : World) (session : ptr).

(** C7. The disconnect handler deletes the entry of the session's identity
    [K] and nothing else: it is a no-op, without an error, when [K] is
    already absent; running it twice gives the state that running it once
    gives; every entry other than [K], every session and the running index
    are left alone.  [CloseUser K] leaves the whole map and the running index
    alone and touches no session other than one whose identity is [K], also
    when it is called twice. *)
Theorem disconnect_idempotent_and_local :
  let K := UserIdx (deref w session) in
  let d := onClientDisconnect (ArgSession session) in
  (clients w !! K = None →
     final (d w) = w ∧ trace (d w) = [EvLock; EvUnlock]) ∧
  final (d (final (d w))) = final (d w) ∧
  clients (final (d w)) !! K = None ∧
  (∀ j, j ≠ K → clients (final (d w)) !! j = clients w !! j) ∧
  heap (final (d w)) = heap w ∧ userIdx (final (d w)) = userIdx w ∧
  (∀ order order' i,
     let c1 := CloseUser order i w in
     let c2 := CloseUser order' i (final c1) in
     clients (final c1) = clients w ∧ clients (final c2) = clients w ∧
     userIdx (final c2) = userIdx w ∧
     ∀ q, UserIdx (deref w q) ≠ i →
          deref (final c1) q = deref w q ∧ deref (final c2) q = deref w q).
Proof.
  cbn zeta. rewrite !onClientDisconnect_run. unfold final, trace, deref. cbn.
  split_and!.
  - intros Hnone. rewrite delete_id by done. by rewrite World_eta.
  - by rewrite delete_delete_eq.
  - apply lookup_delete_eq.
  - intros j Hj. by apply lookup_delete_ne.
  - done.
  - done.
  - intros order order' i.
    pose proof (CloseUser_run w order i) as (Hc1 & Hu1 & _ & H1).
    pose proof (CloseUser_run ((CloseUser order i w).1.2) order' i)
      as (Hc2 & Hu2 & _ & H2).
    unfold final, result, deref in *. cbn zeta in *.
    assert (Hfr1 : ∀ q, UserIdx (heap w q) ≠ i →
                        heap (CloseUser order i w).1.2 q = heap w q).
    { intros q Hq. destruct H1 as [[_ ->] | (p & _ & Hp & ->)]; [done|].
      apply fn_lookup_alter_ne. congruence. }
    split_and!; [done | congruence | congruence |].
    intros q Hq. split; [by apply Hfr1|].
    destruct H2 as [[_ ->] | (p & _ & Hp & ->)]; [by apply Hfr1|].
    destruct (decide (p = q)) as [->|Hpq].
    + rewrite Hfr1 in Hp; done.
    + rewrite fn_lookup_alter_ne by done. by apply Hfr1.
Qed.

End Removal.

(** ** The accept loop *)

Lemma skip_used_run (fuel : nat) (w : World) :
  ∃ d : nat, (d ≤ fuel)%nat ∧
    (∀ d', (d' < d)%nat →
       is_Some (clients w !! Nat.iter d' u16.incr (userIdx w))) ∧
    let u' := Nat.iter d u16.incr (userIdx w) in
    (clients w !! u' = None ∧
     skip_used fuel w
     = (true, mkWorld (heap w) (next w) (clients w) u', []))
    ∨ (d = fuel ∧ is_Some (clients w !! u') ∧
       skip_used fuel w
       = (false, mkWorld (heap w) (next w) (clients w) u', [])).
Proof.
  revert w. induction fuel as [|fuel IH]; intros w.
  - exists 0%nat. split; [lia|]. split; [intros; lia|]. cbn.
    unfold get, mbind, M_bind, mret, M_ret. cbn.
    destruct (clients w !! userIdx w) eqn:Hu; rewrite World_eta; eauto.
  - cbn [skip_used]. unfold get, mbind, M_bind, mret, M_ret. cbn.
    destruct (clients w !! userIdx w) eqn:Hu.
    + destruct (IH (mkWorld (heap w) (next w) (clients w)
                      (u16.incr (userIdx w)))) as (d & Hd & Hocc & Hres).
      cbn in Hocc, Hres. exists (S d). split; [lia|]. split.
      * intros [|d'] Hlt; [cbn; by rewrite Hu|].
        rewrite Nat.iter_succ_r. apply Hocc. lia.
      * cbn zeta. rewrite Nat.iter_succ_r. unfold set_userIdx. cbn.
        destruct Hres as [(Hfree & ->) | (-> & Hfull & ->)]; [left|right];
          done.
    + exists 0%nat. split; [lia|]. split; [intros; lia|]. left.
      by rewrite World_eta.
Qed.

Lemma Init_accept_run (fuel : nat) (a : AcceptResult) (w : World) :
  let r := Init_accept fuel a w in
  let session := next w in
  ∃ d : nat, (d ≤ fuel)%nat ∧
    (∀ d', (d' < d)%nat →
       is_Some (clients w !! Nat.iter d' u16.incr (userIdx w))) ∧
    let k := Nat.iter d u16.incr (userIdx w) in
    (clients w !! k = None ∧ result r = Accepted session ∧
     final r = accepted_world w a k ∧
     trace r
     = accept_log a ++ [EvRLock; EvRUnlock]
       ++ (if decide (d = 0%nat) then []
           else [EvLock; EvUnlock; EvRLock; EvRUnlock])
       ++ [EvLock; EvUnlock; EvConnect session; EvStart session])
    ∨ (d = fuel ∧ is_Some (clients w !! k) ∧ result r = Spinning session ∧
       clients (final r) = clients w ∧
       trace r = accept_log a ++ [EvRLock; EvRUnlock; EvLock]).
Proof.
  cbn zeta. unfold Init_accept.
  set (w1 := mkWorld (<[next w := Session_new (accepted_socket a)]> (heap w))
               (S (next w)) (clients w) (userIdx w)).
  destruct (skip_used_run fuel w1) as (d & Hd & Hocc & Hres).
  cbn in Hocc, Hres.
  destruct (clients w !! userIdx w) eqn:Hu.
  - exists d. split; [done|]. split; [done|].
    destruct Hres as [(Hfree & Hrun) | (-> & Hfull & Hrun)]; [left|right].
    + assert (d ≠ 0%nat) as Hd0.
      { intros ->. cbn in Hfree. congruence. }
      destruct a; unfold w1 in Hrun; mrun; rewrite Hu; cbn in Hrun |- *;
        rewrite Hrun; cbn; rewrite Hfree; cbn;
        rewrite decide_False by done; done.
    + destruct a; unfold w1 in Hrun; mrun; rewrite Hu; cbn in Hrun |- *;
        rewrite Hrun; cbn; done.
  - exists 0%nat. split; [lia|]. split; [intros; lia|]. left. cbn.
    destruct a; mrun; rewrite Hu; cbn; done.
Qed.

(** ** The registry invariant *)

Lemma incr_in_range (z : Z) : u16.in_range (u16.incr z).
Proof.
  unfold u16.in_range, u16.incr, u16.wrap, u16.modulus.
  by apply Z.mod_pos_bound.
Qed.

Lemma iter_incr_in_range (d : nat) (u : Z) :
  u16.in_range u → u16.in_range (Nat.iter d u16.incr u).
Proof.
  destruct d; [done|]. intros _. rewrite Nat.iter_succ. apply incr_in_range.
Qed.

Lemma iter_incr_wrap (d : nat) (u : Z) :
  u16.in_range u → Nat.iter d u16.incr u = u16.wrap (u + Z.of_nat d).
Proof.
  unfold u16.in_range, u16.wrap, u16.modulus. intros Hu.
  induction d as [|d IH].
  - cbn. rewrite Z.add_0_r, Z.mod_small; lia.
  - rewrite Nat.iter_succ, IH. unfold u16.incr, u16.wrap, u16.modulus.
    rewrite Zplus_mod_idemp_l. f_equal. lia.
Qed.

Lemma Init_world_inv : registry_inv Init_world.
Proof.
  split; cbn.
  - intros i p Hi. by rewrite lookup_empty in Hi.
  - unfold u16.in_range, u16.modulus. lia.
  - intros i p Hi. by rewrite lookup_empty in Hi.
Qed.

Lemma accepted_world_inv (w : World) (a : AcceptResult) (k : Z) :
  registry_inv w → u16.in_range k → clients w !! k = None →
  registry_inv (accepted_world w a k).
Proof.
  intros [Hentry Hidx Hkeys] Hk Hfree. split; unfold deref; cbn.
  - intros i p. rewrite lookup_insert. case_decide as Hik.
    + intros [= <-]. subst i. split; [lia|]. by rewrite fn_lookup_alter.
    + intros Hi. destruct (Hentry i p Hi) as [Hlt Hid]. split; [lia|].
      rewrite fn_lookup_alter_ne, fn_lookup_insert_ne by lia. done.
  - apply incr_in_range.
  - intros i p. rewrite lookup_insert. case_decide as Hik; [by subst|].
    apply Hkeys.
Qed.

Lemma alter_heap_inv (w : World) (f : Session → Session) (p : ptr) :
  (∀ s, UserIdx (f s) = UserIdx s) → registry_inv w →
  registry_inv (mkWorld (alter f p (heap w)) (next w) (clients w) (userIdx w)).
Proof.
  intros Hf [Hentry Hidx Hkeys]. split; unfold deref; cbn; [|done|done].
  intros i q Hi. destruct (Hentry i q Hi) as [Hlt Hid]. split; [done|].
  destruct (decide (p = q)) as [->|Hne].
  - by rewrite fn_lookup_alter, Hf.
  - by rewrite fn_lookup_alter_ne.
Qed.

Lemma VerifyUser_inv (w : World) (i k : Z) (ip : string) (db_idx : Z) :
  registry_inv w → registry_inv (final (VerifyUser i k ip db_idx w)).
Proof.
  intros Hinv. mrun. destruct (clients w !! i) as [p|]; cbn; [|done].
  destruct (verify_ok _ _ _); cbn; [|done]. by apply alter_heap_inv.
Qed.

Lemma step_inv (o : Op) (w w' : World) :
  registry_inv w → step o w = Some w' → registry_inv w'.
Proof.
  intros Hinv. destruct o as [fuel a | [p|] | i k ip db | p | p]; cbn [step].
  - destruct (Init_accept_run fuel a w) as (d & _ & _ & Hcase).
    cbn zeta in Hcase.
    destruct Hcase as [(Hfree & Hres & Hfin & _) | (_ & _ & Hres & _)];
      rewrite Hres; [|done].
    intros [= <-]. rewrite Hfin. apply accepted_world_inv; [done| |done].
    apply iter_incr_in_range, Hinv.
  - destruct (allocated w p); [|done]. intros [= <-].
    mrun.
    destruct Hinv as [Hentry Hidx Hkeys]. split; cbn; [| done |].
    + intros i q [_ Hi]%lookup_delete_Some. by apply Hentry.
    + intros i q [_ Hi]%lookup_delete_Some. by eapply Hkeys.
  - by intros [= <-].
  - intros [= <-]. by apply VerifyUser_inv.
  - destruct (allocated w p); [|done]. intros [= <-]. unfold Start. mrun.
    by apply alter_heap_inv.
  - destruct (allocated w p); [|done]. intros [= <-]. mrun.
    by apply alter_heap_inv.
Qed.

Lemma run_inv (ops : list Op) (w w' : World) :
  registry_inv w → run ops w = Some w' → registry_inv w'.
Proof.
  revert w. induction ops as [|o ops IH]; intros w Hinv; cbn.
  - by intros [= <-].
  - destruct (step o w) as [w1|] eqn:Hstep; [|done].
    apply IH. by eapply step_inv.
Qed.

Lemma elem_of_sessions (w : World) (p : ptr) :
  p ∈ sessions w ↔ ∃ i, clients w !! i = Some p.
Proof.
  unfold sessions. rewrite list_elem_of_fmap. split.
  - intros ([i q] & -> & Hin). exists i. by apply elem_of_map_to_list.
  - intros [i Hi]. exists (i, p). split; [done|].
    by apply elem_of_map_to_list.
Qed.

Section Uniqueness.
Variables (ops : list Op) (w : World).
Hypothesis Hrun : run ops Init_world = Some w.

(** C1. In every state that a sequence of accepts, disconnects, verifies,
    starts and closes leads to, each registered session carries the identity it is
    registered under, so two entries of the registry never hold the same
    identity and never share a session; and an accept hands out an identity
    only if no session is registered under it at that moment, to a session
    that was not in the registry, leaving all other entries as they were. *)
Theorem identity_unique_among_registered :
  (∀ i p, clients w !! i = Some p → UserIdx (deref w p) = i) ∧
  (∀ i j p q, clients w !! i = Some p → clients w !! j = Some q →
     UserIdx (deref w p) = UserIdx (deref w q) → i = j ∧ p = q) ∧
  (∀ fuel a session,
     let r := Init_accept fuel a w in
     result r = Accepted session →
     let k := UserIdx (deref (final r) session) in
     clients w !! k = None ∧ (session ∉ sessions w) ∧
     clients (final r) !! k = Some session ∧
     (∀ j, j ≠ k → clients (final r) !! j = clients w !! j)).
Proof.
  pose proof (run_inv _ _ _ Init_world_inv Hrun) as [Hentry Hidx Hkeys].
  split_and!.
  - intros i p Hi. by apply Hentry.
  - intros i j p q Hi Hj Heq.
    destruct (Hentry i p Hi) as [_ Hp], (Hentry j q Hj) as [_ Hq].
    assert (i = j) as -> by congruence. split; congruence.
  - intros fuel a session r Hacc.
    destruct (Init_accept_run fuel a w) as (d & _ & _ & Hcase).
    cbn zeta in Hcase. fold r in Hcase.
    destruct Hcase as [(Hfree & Hres & Hfin & _) | (_ & _ & Hres & _)];
      [|congruence].
    assert (session = next w) as -> by congruence.
    rewrite Hfin. unfold deref, accepted_world. cbn.
    rewrite fn_lookup_alter. cbn. split_and!.
    + done.
    + intros [i Hi]%elem_of_sessions. apply Hentry in Hi as [Hlt _]. lia.
    + apply lookup_insert_eq.
    + intros j Hj. by apply lookup_insert_ne.
Qed.

End Uniqueness.

(** ** Which identity an accept hands out *)

Lemma wrap_small (z : Z) : u16.in_range z → u16.wrap z = z.
Proof. unfold u16.in_range, u16.wrap. intros Hz. by apply Z.mod_small. Qed.

Lemma wrap_offset (u i : Z) :
  u16.in_range i → u16.wrap (u + (i - u) mod u16.modulus) = i.
Proof.
  intros Hi. unfold u16.wrap. rewrite Zplus_mod_idemp_r.
  replace (u + (i - u)) with i by lia. by apply Z.mod_small.
Qed.

Section FirstFree.
Variables (w : World) (fuel : nat) (a : AcceptResult) (i : Z).
Hypothesis Hindex : u16.in_range (userIdx w).
Hypothesis Hi : u16.in_range i.
Hypothesis Hfree : clients w !! i = None.
Hypothesis Hfuel : 65535 ≤ Z.of_nat fuel.

(** C2, as the code has it.  When some identity is free, an accept (given
    room for the 65535 increments its search may need) registers the new
    session under the first free identity at or after the running index,
    going round from 65535 to 0: every identity between the running index and
    the one handed out is in use, the running index moves to the identity
    after it, and an identity below the running index is handed out only when
    everything from the running index up to 65535 is in use. *)
Theorem accept_takes_first_free_from_index :
  let r := Init_accept fuel a w in
  ∃ d : Z, 0 ≤ d < 65536 ∧
    let k := u16.wrap (userIdx w + d) in
    result r = Accepted (next w) ∧
    UserIdx (deref (final r) (next w)) = k ∧
    clients (final r) !! k = Some (next w) ∧
    userIdx (final r) = u16.incr k ∧
    clients w !! k = None ∧
    (∀ d', 0 ≤ d' < d → is_Some (clients w !! u16.wrap (userIdx w + d'))) ∧
    (k < userIdx w →
     ∀ j, userIdx w ≤ j < 65536 → is_Some (clients w !! j)).
Proof.
  cbn zeta.
  destruct (Init_accept_run fuel a w) as (d & Hd & Hocc & Hcase).
  cbn zeta in Hcase. rewrite iter_incr_wrap in Hcase by done.
  set (di := (i - userIdx w) mod u16.modulus).
  assert (0 ≤ di < 65536) as Hdi by (by apply Z.mod_pos_bound).
  assert (Z.of_nat d ≤ di) as Hle.
  { destruct (decide (Z.of_nat d ≤ di)) as [|Hgt]; [done|].
    destruct (Hocc (Z.to_nat di)) as [p Hp]; [lia|].
    rewrite iter_incr_wrap, Z2Nat.id in Hp by (done || lia).
    unfold di in Hp. rewrite wrap_offset in Hp by done. congruence. }
  destruct Hcase as [(Hk & Hres & Hfin & _) | (-> & [p Hp] & _)].
  - exists (Z.of_nat d). split; [lia|]. cbn zeta.
    rewrite Hfin. unfold deref, accepted_world. cbn.
    rewrite fn_lookup_alter, lookup_insert_eq. cbn. split_and!; try done.
    + intros d' Hd'. specialize (Hocc (Z.to_nat d')).
      rewrite iter_incr_wrap, Z2Nat.id in Hocc by (done || lia).
      apply Hocc. lia.
    + intros Hlow j Hj.
      assert (65536 ≤ userIdx w + Z.of_nat d) as Hwrap.
      { destruct (decide (65536 ≤ userIdx w + Z.of_nat d)); [done|].
        rewrite wrap_small in Hlow; [lia|].
        unfold u16.in_range, u16.modulus in *. lia. }
      specialize (Hocc (Z.to_nat (j - userIdx w))).
      rewrite iter_incr_wrap, Z2Nat.id in Hocc by (done || lia).
      replace (userIdx w + (j - userIdx w)) with j in Hocc by lia.
      rewrite wrap_small in Hocc; [apply Hocc; lia|].
      unfold u16.in_range, u16.modulus in *. lia.
  - assert (Z.of_nat fuel = di) as Heq by lia.
    rewrite Heq in Hp. unfold di in Hp. rewrite wrap_offset in Hp by done.
    congruence.
Qed.

End FirstFree.

(** ** A registry with no identity left *)

Import scenario.

Lemma run_app (l1 l2 : list Op) (w : World) :
  run (l1 ++ l2) w = run l1 w ≫= run l2.
Proof.
  revert w. induction l1 as [|o l1 IH]; intros w; cbn; [done|].
  destruct (step o w); [apply IH | done].
Qed.

Lemma accept_many_S (n : nat) :
  accept_many (S n) = final (Init_accept 0 (AcceptOk conn0) (accept_many n)).
Proof. unfold accept_many. by rewrite Nat.iter_succ. Qed.

Lemma accept_many_spec (n : nat) :
  Z.of_nat n ≤ 65536 →
  let w := accept_many n in
  next w = n ∧ userIdx w = u16.wrap (Z.of_nat n) ∧
  (∀ i, clients w !! i
        = if decide (0 ≤ i < Z.of_nat n) then Some (Z.to_nat i) else None) ∧
  (∀ p, (p < n)%nat →
        deref w p = with_UserIdx (Z.of_nat p) (Session_new (Some conn0))) ∧
  run (replicate n accept0) Init_world = Some w.
Proof.
  cbn zeta. induction n as [|n IH]; intros Hn.
  - split_and!; try done.
    + intros i. unfold accept_many. cbn.
      rewrite lookup_empty, decide_False; [done|lia].
    + intros; lia.
  - destruct IH as (Hnext & Hidx & Hcl & Hheap & Hrun); [lia|].
    rewrite wrap_small in Hidx by (unfold u16.in_range, u16.modulus; lia).
    assert (clients (accept_many n) !! Z.of_nat n = None) as Hfree.
    { rewrite Hcl. rewrite decide_False; [done|lia]. }
    destruct (Init_accept_run 0 (AcceptOk conn0) (accept_many n))
      as (d & Hd & _ & Hcase).
    assert (d = 0%nat) as -> by lia.
    cbn zeta in Hcase. cbn [Nat.iter nat_rect] in Hcase.
    rewrite Hidx in Hcase.
    destruct Hcase as [(_ & Hres & Hfin & _) | (_ & [p Hp] & _)];
      [|congruence].
    assert (step accept0 (accept_many n) = Some (accept_many (S n))) as Hstep.
    { rewrite accept_many_S. unfold accept0, step. by rewrite Hres. }
    rewrite replicate_S_end, run_app, Hrun. cbn [mbind option_bind].
    rewrite accept_many_S, Hfin. unfold deref, accepted_world.
    cbn [heap next clients userIdx]. rewrite Hnext. split_and!.
    + done.
    + unfold u16.incr. f_equal. lia.
    + intros i. rewrite lookup_insert. case_decide as Hi.
      * subst i. rewrite decide_True by lia. by rewrite Nat2Z.id.
      * rewrite Hcl. repeat case_decide; (done || lia).
    + intros p Hp. destruct (decide (p = n)) as [->|Hne].
      * by rewrite fn_lookup_alter, fn_lookup_insert.
      * rewrite fn_lookup_alter_ne, fn_lookup_insert_ne by done.
        apply Hheap. lia.
    + cbn [run]. rewrite Hstep, accept_many_S, Hfin.
      unfold accepted_world. by rewrite Hnext.
Qed.

Lemma modulus_nat : Z.of_nat (Z.to_nat u16.modulus) = 65536.
Proof. unfold u16.modulus. lia. Qed.

Lemma full_world_spec :
  next full_world = Z.to_nat u16.modulus ∧ userIdx full_world = 0 ∧
  (∀ i, u16.in_range i → clients full_world !! i = Some (Z.to_nat i)) ∧
  run (replicate (Z.to_nat u16.modulus) accept0) Init_world = Some full_world.
Proof.
  pose proof modulus_nat as Hm. unfold full_world.
  destruct (accept_many_spec (Z.to_nat u16.modulus))
    as (Hnext & Hidx & Hcl & _ & Hrun); [lia|].
  split; [|split; [|split]].
  - exact Hnext.
  - rewrite Hidx, Hm. reflexivity.
  - intros i Hi. rewrite Hcl, Hm. apply decide_True. exact Hi.
  - exact Hrun.
Qed.

(** C3, on the code.  With all 65536 identities in use (the state that 65536
    accepts without a disconnect lead to), the search loop of the accept never
    exits, whatever the fuel: the accept is still inside the loop, holding the
    write lock, it has not logged "Can't find any available user indexes!"
    and has not dropped the connection.  In no state at all does an accept
    end in the branch that logs and drops. *)
Theorem accept_on_full_registry_never_exits :
  run (replicate (Z.to_nat u16.modulus) accept0) Init_world = Some full_world
  ∧ (∀ i, u16.in_range i → is_Some (clients full_world !! i))
  ∧ (∀ fuel a,
       let r := Init_accept fuel a full_world in
       result r = Spinning (next full_world)
       ∧ trace r = accept_log a ++ [EvRLock; EvRUnlock; EvLock]
       ∧ clients (final r) = clients full_world)
  ∧ (∀ w fuel a session, result (Init_accept fuel a w) ≠ Dropped session).
Proof.
  destruct full_world_spec as (Hnext & Hidx & Hfull & Hrun).
  split; [exact Hrun|]. split; [|split].
  - intros i Hi. rewrite (Hfull i Hi). eexists. reflexivity.
  - intros fuel a.
    destruct (Init_accept_run fuel a full_world) as (d & _ & _ & Hcase).
    cbn zeta in Hcase. cbn zeta.
    destruct Hcase as [(Hnone & _) | (_ & _ & Hres & Hcl & Htr)].
    + rewrite Hfull in Hnone; [discriminate Hnone|].
      apply iter_incr_in_range. rewrite Hidx.
      unfold u16.in_range, u16.modulus. lia.
    + split; [exact Hres|]. split; [exact Htr | exact Hcl].
  - intros w fuel a session.
    destruct (Init_accept_run fuel a w) as (d & _ & _ & Hcase).
    cbn zeta in Hcase.
    destruct Hcase as [(_ & Hres & _) | (_ & _ & Hres & _)];
      rewrite Hres; discriminate.
Qed.

(** ** Lookup by account *)

Lemma range_order_refl (w : World) : range_order w (map_to_list (clients w)).
Proof. unfold range_order. reflexivity. Qed.

Lemma elem_of_range_order (w : World) (order : list (Z * ptr)) i p :
  range_order w order → (i, p) ∈ order ↔ clients w !! i = Some p.
Proof.
  unfold range_order. intros Hperm. rewrite Hperm.
  apply elem_of_map_to_list.
Qed.

Lemma IsOnline_run (INVALID_USER_INDEX : Z) (w : World)
    (order : list (Z * ptr)) (account : Z) :
  range_order w order →
  let r := IsOnline INVALID_USER_INDEX order account w in
  final r = w ∧ trace r = [EvRLock; EvRUnlock] ∧
  ((∃ i p, clients w !! i = Some p ∧ online_as account (deref w p) = true
           ∧ result r = UserIdx (deref w p))
   ∨ ((∀ i p, clients w !! i = Some p →
              online_as account (deref w p) = false)
      ∧ result r = INVALID_USER_INDEX)).
Proof.
  intros Horder. mrun.
  destruct (find _ order) as [[i p]|] eqn:Hfind; cbn.
  - split_and!; try done. left. exists i, p.
    apply find_some in Hfind as [Hin Hp]. split_and!; try done.
    by apply (elem_of_range_order w order), list_elem_of_In.
  - split_and!; try done. right. split; [|done]. intros i p Hi.
    apply (find_none _ _ Hfind (i, p)).
    by apply list_elem_of_In, (elem_of_range_order w order).
Qed.

(** C4, against the code: whatever [uint16] value the sentinel has, the
    registry reaches a state in which a verified, logged-in session holds that
    very value as its identity, and [IsOnline] of its account returns the
    sentinel although the account is online. *)
Lemma IsOnline_sentinel_is_an_identity :
  ¬ ∃ INVALID_USER_INDEX, u16.in_range INVALID_USER_INDEX ∧
      ∀ ops w order account,
        run ops Init_world = Some w → range_order w order →
        (result (IsOnline INVALID_USER_INDEX order account w)
         ≠ INVALID_USER_INDEX
         ↔ ∃ i p, clients w !! i = Some p
                  ∧ online_as account (deref w p) = true).
Proof.
  intros (inv & Hinv & Hclaim).
  set (n := Z.to_nat inv).
  assert (Z.of_nat n = inv) as Hn.
  { unfold n, u16.in_range in *. lia. }
  destruct (accept_many_spec (S n)) as (Hnext & _ & Hcl & Hheap & Hrun).
  { unfold u16.in_range, u16.modulus in Hinv. lia. }
  set (w0 := accept_many (S n)) in *. clearbody w0.
  assert (clients w0 !! inv = Some n) as Hentry.
  { rewrite Hcl, decide_True; [done|]. unfold u16.in_range in Hinv. lia. }
  set (verify := OpVerifyUser inv 0 "10.0.0.1" 7).
  set (w := mkWorld (alter (set_verified 7) n (heap w0)) (next w0)
              (clients w0) (userIdx w0)).
  assert (w = w) as Hw by done.
  assert (run (replicate (S n) accept0 ++ [verify]) Init_world = Some w)
    as Hreach.
  { rewrite run_app, Hrun. cbn. unfold final.
    rewrite (VerifyUser_run w0 inv 0 "10.0.0.1" 7 n); [done..|].
    rewrite (Hheap n); [done|lia]. }
  assert (online_as 7 (deref w n) = true ∧ UserIdx (deref w n) = inv)
    as [Hon Hid].
  { unfold deref, w. cbn. rewrite fn_lookup_alter.
    specialize (Hheap n ltac:(lia)). unfold deref in Hheap. rewrite Hheap.
    cbn. by rewrite Hn. }
  assert (∀ i p, clients w !! i = Some p →
                 online_as 7 (deref w p) = true → p = n) as Honly.
  { intros i p. unfold deref, w. cbn. intros Hi.
    destruct (decide (p = n)) as [|Hne]; [done|].
    rewrite fn_lookup_alter_ne by done.
    rewrite Hcl in Hi. case_decide; [|done]. injection Hi as <-.
    specialize (Hheap (Z.to_nat i) ltac:(lia)). unfold deref in Hheap.
    rewrite Hheap. done. }
  specialize (Hclaim _ w (map_to_list (clients w)) 7 Hreach
                (range_order_refl w)).
  destruct (IsOnline_run inv w (map_to_list (clients w)) 7
              (range_order_refl w)) as (_ & _ & Hcase).
  cbn zeta in Hcase.
  assert (clients w !! inv = Some n) as Hentry' by done.
  destruct Hcase as [(i & p & Hi & Hp & Hres) | [Hnone Hres]].
  - apply (proj2 Hclaim); [by exists inv, n|].
    rewrite Hres. rewrite (Honly i p Hi Hp). done.
  - rewrite (Hnone inv n Hentry') in Hon. done.
Qed.

Section IsOnline.
Variables (INVALID_USER_INDEX : Z) (w : World).
Variables (order : list (Z * ptr)) (account : Z).
Hypothesis Horder : range_order w order.

(** C4, as the code has it.  [IsOnline account] changes nothing; when some
    registered session is verified, logged in and of that account it returns
    the [UserIdx] of such a session, and when there is none it returns
    [INVALID_USER_INDEX].  The result tells the two cases apart in every
    state in which no registered session holds the sentinel as its
    identity. *)
Theorem IsOnline_returns_identity_of_match :
  let r := IsOnline INVALID_USER_INDEX order account w in
  let online := ∃ i p, clients w !! i = Some p
                       ∧ online_as account (deref w p) = true in
  final r = w ∧
  (online → ∃ i p, clients w !! i = Some p
                   ∧ online_as account (deref w p) = true
                   ∧ result r = UserIdx (deref w p)) ∧
  (¬ online → result r = INVALID_USER_INDEX) ∧
  ((∀ i p, clients w !! i = Some p →
           UserIdx (deref w p) ≠ INVALID_USER_INDEX) →
   (result r ≠ INVALID_USER_INDEX ↔ online)).
Proof.
  cbn zeta.
  destruct (IsOnline_run INVALID_USER_INDEX w order account Horder)
    as (Hfin & _ & Hcase).
  cbn zeta in Hcase. split; [done|].
  destruct Hcase as [(i & p & Hi & Hp & Hres) | [Hnone Hres]].
  - split_and!.
    + intros _. by exists i, p.
    + intros Hno. destruct Hno. by exists i, p.
    + intros Hvalid. split; [intros _; by exists i, p|].
      intros _. rewrite Hres. by apply (Hvalid i).
  - split_and!.
    + intros (i & p & Hi & Hp). rewrite (Hnone i p Hi) in Hp. done.
    + done.
    + intros _. split; [done|].
      intros (i & p & Hi & Hp). rewrite (Hnone i p Hi) in Hp. done.
Qed.

End IsOnline.

(** ** Broadcast *)

Lemma sends_of_sends (l : list (ptr * Writer)) :
  sends ((λ x, EvSend x.1 x.2) <$> l) = l.
Proof. induction l as [|[p pkt] l IH]; cbn; [done|]. by rewrite IH. Qed.

Lemma sends_bracket (l : list (ptr * Writer)) :
  sends (EvRLock :: ((λ x, EvSend x.1 x.2) <$> l) ++ [EvRUnlock]) = l.
Proof.
  cbn. induction l as [|[p pkt] l IH]; cbn; [done|]. by rewrite IH.
Qed.

Lemma inside_bracket (l : list (ptr * Writer)) :
  sends_inside_rlock 0 (EvRLock :: ((λ x, EvSend x.1 x.2) <$> l) ++ [EvRUnlock])
  = true.
Proof. cbn. induction l as [|[p pkt] l IH]; cbn; done. Qed.

Lemma SendToAll_run (order : list (Z * ptr)) (writer : Writer) (w : World) :
  SendToAll order writer w
  = (tt, w,
     EvRLock :: ((λ x, EvSend x.1 x.2) <$> ((λ e, (e.2, writer)) <$> order))
     ++ [EvRUnlock]).
Proof.
  assert (∀ l, for_each l (λ e : Z * ptr, Send e.2 writer) w
               = (tt, w, (λ x, EvSend x.1 x.2)
                           <$> ((λ e : Z * ptr, (e.2, writer)) <$> l)))
    as Hloop.
  { induction l as [|e l IH]; [done|]. cbn [for_each].
    unfold mbind, M_bind.
    change (Send e.2 writer w) with (tt, w, [EvSend e.2 writer]).
    cbv beta iota. by rewrite IH. }
  unfold SendToAll, mbind, M_bind.
  change (RLock w) with (tt, w, [EvRLock]). cbv beta iota. rewrite Hloop.
  change (RUnlock w) with (tt, w, [EvRUnlock]). done.
Qed.

Lemma SendToAllExcept_run (order : list (Z * ptr)) (writer : Writer)
    (session : option ptr) (w : World) :
  SendToAllExcept order writer session w
  = (tt, w,
     EvRLock :: ((λ x, EvSend x.1 x.2)
                   <$> ((λ e, (e.2, writer))
                          <$> filter (λ e, Some e.2 ≠ session) order))
     ++ [EvRUnlock]).
Proof.
  assert (∀ l, for_each l (λ e : Z * ptr,
                 if bool_decide (Some e.2 = session) then mret tt
                 else Send e.2 writer) w
               = (tt, w, (λ x, EvSend x.1 x.2)
                           <$> ((λ e : Z * ptr, (e.2, writer))
                                  <$> filter (λ e, Some e.2 ≠ session) l)))
    as Hloop.
  { induction l as [|e l IH]; [done|]. cbn [for_each].
    unfold mbind, M_bind. rewrite filter_cons.
    case_bool_decide; case_decide; try done.
    - change (@mret M _ unit tt w) with (tt, w, @nil Event).
      cbv beta iota. by rewrite IH.
    - change (Send e.2 writer w) with (tt, w, [EvSend e.2 writer]).
      cbv beta iota. by rewrite IH. }
  unfold SendToAllExcept, mbind, M_bind.
  change (RLock w) with (tt, w, [EvRLock]). cbv beta iota. rewrite Hloop.
  change (RUnlock w) with (tt, w, [EvRUnlock]). done.
Qed.





Section Broadcast.
Variables (ops : list Op) (w : World).
Variables (order : list (Z * ptr)) (writer : Writer) (session : option ptr).
Hypothesis Hrun : run ops Init_world = Some w.
Hypothesis Horder : range_order w order.


End Broadcast.

(** ** The read lock and the socket write *)

Section LockAndSend.
Variables (w : World) (i : Z) (writer : Writer).
Variables (order : list (Z * ptr)) (session : option ptr).

(** C8, as the code has it.  [SendToUser], [SendToAll] and [SendToAllExcept]
    take the read lock of the registry first, release it last and do every
    send in between: each socket write happens while the read lock is
    held. *)
Theorem sends_happen_under_read_lock :
  let bracket tr :=
    tr = EvRLock :: ((λ x, EvSend x.1 x.2) <$> sends tr) ++ [EvRUnlock]
    ∧ sends_inside_rlock 0 tr = true in
  bracket (trace (SendToUser i writer w))
  ∧ bracket (trace (SendToAll order writer w))
  ∧ bracket (trace (SendToAllExcept order writer session w)).
Proof.
  cbn zeta. rewrite SendToAll_run, SendToAllExcept_run.
  unfold trace. cbn [snd]. rewrite !sends_bracket, !inside_bracket.
  split_and!; try done.
  all: mrun; destruct (clients w !! i) as [p|]; cbn; [|done];
    destruct (Connected (heap w p)); done.
Qed.

End LockAndSend.

(** ** The claims on concrete runs *)

Lemma churned_run : run churn_ops Init_world = Some churned.
Proof. vm_compute. reflexivity. Qed.

Lemma verified_run : run verified_ops Init_world = Some verified_world.
Proof. vm_compute. reflexivity. Qed.

(** C2, against the code: after three accepts and the disconnect of the first
    session, identity 0 is free and below the running index 3, and the next
    accept hands out 3. *)
Lemma accept_does_not_take_lowest_free :
  ¬ ∀ ops w fuel a session,
      run ops Init_world = Some w →
      result (Init_accept fuel a w) = Accepted session →
      ∀ j, u16.in_range j → clients w !! j = None →
           UserIdx (deref (final (Init_accept fuel a w)) session) ≤ j.
Proof.
  intros Hclaim.
  assert (result (Init_accept (Z.to_nat 65536) (AcceptOk conn0) churned)
          = Accepted 3%nat) as Hres by (vm_compute; reflexivity).
  assert (clients churned !! 0 = None) as Hfree by (vm_compute; reflexivity).
  assert (u16.in_range 0) as H0 by (unfold u16.in_range, u16.modulus; lia).
  assert (UserIdx (deref (final (Init_accept (Z.to_nat 65536) (AcceptOk conn0)
                                   churned)) 3%nat) = 3) as Hid
    by (vm_compute; reflexivity).
  specialize (Hclaim churn_ops churned _ _ _ churned_run Hres 0 H0 Hfree).
  rewrite Hid in Hclaim. lia.
Qed.

(** C8, against the code: the broadcast to one accepted session, and the
    send to one started session, write to the socket between taking and
    releasing the read lock. *)
Lemma registry_sends_under_read_lock :
  let w := accept_many 1 in
  run [accept0] Init_world = Some w
  ∧ run started_ops Init_world = Some started_world
  ∧ trace (SendToAll (map_to_list (clients w)) pkt0 w)
  = [EvRLock; EvSend 0%nat pkt0; EvRUnlock]
  ∧ sends_outside_rlock 0
      (trace (SendToAll (map_to_list (clients w)) pkt0 w)) = false
  ∧ trace (SendToUser 0 pkt0 started_world)
    = [EvRLock; EvSend 0%nat pkt0; EvRUnlock]
  ∧ sends_outside_rlock 0 (trace (SendToUser 0 pkt0 started_world)) = false.
Proof. vm_compute. done. Qed.

Lemma identity_unique_witness :
  run churn_ops Init_world = Some churned
  ∧ ∀ i p, clients churned !! i = Some p → UserIdx (deref churned p) = i.
Proof.
  split; [vm_compute; reflexivity|].
  apply (identity_unique_among_registered churn_ops churned).
  vm_compute. reflexivity.
Defined.

Lemma accept_first_free_witness :
  ∃ d : Z, 0 ≤ d < 65536 ∧
    result (Init_accept (Z.to_nat 65535) (AcceptOk conn0) churned)
    = Accepted (next churned).
Proof.
  destruct (accept_takes_first_free_from_index churned (Z.to_nat 65535)
              (AcceptOk conn0) 0) as (d & Hd & Hres & _).
  - vm_compute. split; [discriminate | reflexivity].
  - vm_compute. split; [discriminate | reflexivity].
  - vm_compute. reflexivity.
  - lia.
  - exists d. split; [exact Hd | exact Hres].
Defined.

Lemma IsOnline_witness :
  range_order verified_world (map_to_list (clients verified_world))
  ∧ final (IsOnline 65535 (map_to_list (clients verified_world)) 7
             verified_world) = verified_world.
Proof.
  split; [unfold range_order; reflexivity|].
  apply (IsOnline_returns_identity_of_match 65535 verified_world
           (map_to_list (clients verified_world)) 7).
  unfold range_order. reflexivity.
Defined.


Lemma SendToUser_witness :
  result (SendToUser 0 pkt0 started_world) = true
  ∧ sends (trace (SendToUser 0 pkt0 started_world)) = [(0%nat, pkt0)].
Proof.
  apply (SendToUser_sends_iff_connected started_world 0 pkt0).
  - vm_compute. reflexivity.
  - vm_compute. reflexivity.
Defined.

Lemma disconnect_witness :
  final (onClientDisconnect (ArgSession 0%nat) churned) = churned
  ∧ trace (onClientDisconnect (ArgSession 0%nat) churned)
    = [EvLock; EvUnlock].
Proof.
  apply (disconnect_idempotent_and_local churned 0%nat).
  vm_compute. reflexivity.
Defined.

Lemma Initialized_witness :
  sends (trace (@packet.Initialized backend0 1%nat (packet.mkReader 8)
                  churned)) = [].
Proof.
  apply (@Initialized_rejects_unverified backend0 churned 1%nat
           (packet.mkReader 8)).
  left. vm_compute. reflexivity.
Defined.

Lemma VerifyUser_witness :
  result (VerifyUser 1 0 "10.0.0.1" 7 churned) = true.
Proof.
  apply (VerifyUser_true_iff_key_and_ip_match churned 1 0 "10.0.0.1" 7).
  exists 1%nat. vm_compute. done.
Defined.

(** * Further properties of the registry *)

Import locking.

Lemma Init_accept_accepted (fuel : nat) (a : AcceptResult) (w : World) p :
  result (Init_accept fuel a w) = Accepted p →
  p = next w ∧
  ∃ k tr, clients w !! k = None
          ∧ final (Init_accept fuel a w) = accepted_world w a k
          ∧ trace (Init_accept fuel a w) = accept_log a ++ tr
          ∧ lock_run tr nothing_held = Some nothing_held
          ∧ sends tr = [] ∧ EvClose p ∉ tr.
Proof.
  intros Hres.
  destruct (Init_accept_run fuel a w) as (d & _ & _ & Hcase).
  cbn zeta in Hcase.
  destruct Hcase as [(Hfree & Hacc & Hfin & Htr) | (_ & _ & Hspin & _)];
    [|congruence].
  split; [congruence|]. eexists _, _. split_and!; [done..| | |].
  - destruct (decide (d = 0%nat)); done.
  - destruct (decide (d = 0%nat)); done.
  - destruct (decide (d = 0%nat)); cbn; rewrite !elem_of_cons;
      intros H; repeat (destruct H as [H|H]; [done|]); by inversion H.
Qed.

Lemma Init_accept_fast (fuel : nat) (a : AcceptResult) (w : World) :
  clients w !! userIdx w = None →
  result (Init_accept fuel a w) = Accepted (next w)
  ∧ final (Init_accept fuel a w) = accepted_world w a (userIdx w).
Proof.
  intros Hfree.
  destruct (Init_accept_run fuel a w) as (d & _ & Hocc & Hcase).
  assert (d = 0%nat) as ->.
  { destruct d as [|d]; [done|].
    destruct (Hocc 0%nat ltac:(lia)) as [p Hp]. cbn in Hp. congruence. }
  cbn zeta in Hcase. cbn [Nat.iter nat_rect] in Hcase.
  destruct Hcase as [(_ & Hacc & Hfin & _) | (_ & [p Hp] & _)];
    [done|congruence].
Qed.

Section GetSession.
Variables (ops : list Op) (w : World) (order : list (Z * ptr)) (idx : Z).
Hypothesis Hrun : run ops Init_world = Some w.
Hypothesis Horder : range_order w order.

(** X1. In every state the registry can be in, the scan of [GetSession idx]
    returns exactly the entry [n.clients[idx]]: the session registered under
    [idx], or nil when none is; it changes nothing. *)
Theorem GetSession_agrees_with_map :
  let r := GetSession order idx w in
  result r = clients w !! idx ∧ final r = w.
Proof.
  pose proof (run_inv _ _ _ Init_world_inv Hrun) as [Hentry _ _].
  mrun. destruct (find _ order) as [[j q]|] eqn:Hfind; cbn.
  - split; [|done]. apply find_some in Hfind as [Hin Hq].
    apply bool_decide_eq_true in Hq. cbn in Hq.
    apply list_elem_of_In, (elem_of_range_order w order) in Hin; [|done].
    destruct (Hentry j q Hin) as [_ Hj]. unfold deref in Hj. congruence.
  - split; [|done]. destruct (clients w !! idx) as [p|] eqn:Hidx; [|done].
    pose proof (find_none _ _ Hfind (idx, p)) as Hno. cbn in Hno.
    destruct (Hentry idx p Hidx) as [_ Hp]. unfold deref in Hp.
    rewrite bool_decide_true in Hno by done.
    discriminate Hno.
    by apply list_elem_of_In, (elem_of_range_order w order).
Qed.

End GetSession.

Lemma GetOnlineUsers_run (w : World) :
  GetOnlineUsers w = (Z.of_nat (size (clients w)), w, [EvRLock; EvRUnlock]).
Proof. done. Qed.

Lemma keys_in_range_size (m : gmap Z ptr) :
  (∀ i p, m !! i = Some p → u16.in_range i) → Z.of_nat (size m) ≤ 65536.
Proof.
  intros Hkeys. rewrite <- length_map_to_list.
  rewrite <- (length_fmap fst).
  assert ((map_to_list m).*1 ⊆+ seqZ 0 65536) as Hsub.
  { apply NoDup_submseteq; [apply NoDup_fst_map_to_list|].
    intros i ([j p] & -> & Hin)%list_elem_of_fmap.
    apply elem_of_map_to_list, Hkeys in Hin. by apply elem_of_seqZ. }
  apply submseteq_length in Hsub. rewrite length_seqZ in Hsub. lia.
Qed.

Section OnlineCount.
Variables (ops : list Op) (w : World).
Hypothesis Hrun : run ops Init_world = Some w.

(** X2. In every state the registry can be in, [GetOnlineUsers] returns the
    number of registered sessions, which is at most 65536, and changes
    nothing. *)
Theorem GetOnlineUsers_counts_sessions :
  let r := GetOnlineUsers w in
  result r = Z.of_nat (length (sessions w))
  ∧ 0 ≤ result r ≤ 65536
  ∧ final r = w.
Proof.
  pose proof (run_inv _ _ _ Init_world_inv Hrun) as [_ _ Hkeys].
  cbn zeta. rewrite GetOnlineUsers_run. unfold result, final. cbn.
  unfold sessions. rewrite length_fmap, length_map_to_list.
  pose proof (keys_in_range_size _ Hkeys). split_and!; (done || lia).
Qed.

End OnlineCount.

Section CountSteps.
Variables (w : World) (fuel : nat) (a : AcceptResult) (session : ptr).

(** X3. An accept that registers a session raises the count that
    [GetOnlineUsers] returns by one.  A disconnect event lowers it by one
    when a session is registered under the identity of the event's session
    and leaves it as it is otherwise. *)
Theorem online_count_follows_accept_and_disconnect :
  let count v := result (GetOnlineUsers v) in
  (∀ p, result (Init_accept fuel a w) = Accepted p →
        count (final (Init_accept fuel a w)) = count w + 1) ∧
  (is_Some (clients w !! UserIdx (deref w session)) →
   count (final (onClientDisconnect (ArgSession session) w)) = count w - 1) ∧
  (clients w !! UserIdx (deref w session) = None →
   count (final (onClientDisconnect (ArgSession session) w)) = count w).
Proof.
  assert (∀ v, result (GetOnlineUsers v) = Z.of_nat (size (clients v)))
    as Hcount by done.
  cbv beta zeta. rewrite !Hcount, onClientDisconnect_run.
  unfold final at 2 3. cbn [fst snd clients].
  split_and!.
  - intros p Hacc.
    apply Init_accept_accepted in Hacc as (_ & k & tr & Hfree & -> & _).
    unfold accepted_world. cbn [clients].
    rewrite map_size_insert_None by done. lia.
  - intros Hsome. rewrite map_size_delete_Some by done.
    destruct Hsome as [p Hp].
    assert (size (clients w) ≠ 0%nat).
    { intros Hz%map_size_empty_inv. rewrite Hz, lookup_empty in Hp. done. }
    lia.
  - intros Hnone. by rewrite map_size_delete_None.
Qed.

End CountSteps.

Lemma accepts_from_Init (l : list (nat * AcceptResult)) :
  Z.of_nat (length l) ≤ 65536 →
  ∃ w, run ((λ fa, OpAccept fa.1 fa.2) <$> l) Init_world = Some w
       ∧ next w = length l
       ∧ userIdx w = u16.wrap (Z.of_nat (length l))
       ∧ size (clients w) = length l
       ∧ (∀ i, clients w !! i
               = if decide (0 ≤ i < Z.of_nat (length l))
                 then Some (Z.to_nat i) else None)
       ∧ (∀ (k : nat) fa, l !! k = Some fa →
            deref w k
            = with_UserIdx (Z.of_nat k) (Session_new (accepted_socket fa.2))).
Proof.
  induction l as [|[fuel a] l IH] using rev_ind; intros Hlen.
  - exists Init_world. split_and!; try done.
    intros i. cbn. rewrite lookup_empty, decide_False; [done|lia].
  - rewrite length_app in Hlen |- *. cbn [length] in Hlen |- *.
    destruct IH as (w & Hrun & Hnext & Hidx & Hsize & Hcl & Hheap); [lia|].
    rewrite wrap_small in Hidx by (unfold u16.in_range, u16.modulus; lia).
    assert (clients w !! userIdx w = None) as Hfree.
    { rewrite Hcl, Hidx, decide_False; [done|lia]. }
    destruct (Init_accept_fast fuel a w Hfree) as [Hacc Hfin].
    exists (accepted_world w a (userIdx w)).
    rewrite fmap_app, run_app, Hrun. cbn [mbind option_bind fmap list_fmap].
    cbn [run step fst snd]. rewrite Hacc, Hfin.
    unfold deref, accepted_world. cbn [heap next clients userIdx].
    rewrite Hnext, Hidx. split_and!.
    + done.
    + lia.
    + unfold u16.incr. f_equal. lia.
    + rewrite map_size_insert_None; [lia|]. by rewrite <- Hidx.
    + intros i. rewrite lookup_insert. case_decide as Hi.
      * subst i. rewrite decide_True by lia. by rewrite Nat2Z.id.
      * rewrite Hcl. repeat case_decide; (done || lia).
    + intros k fa Hk. destruct (decide (k = length l)) as [->|Hne].
      * rewrite list_lookup_middle in Hk by done. injection Hk as <-.
        by rewrite fn_lookup_alter, fn_lookup_insert.
      * apply lookup_lt_Some in Hk as Hlt. rewrite length_app in Hlt.
        cbn in Hlt. rewrite lookup_app_l in Hk by lia.
        rewrite fn_lookup_alter_ne, fn_lookup_insert_ne by done.
        by apply Hheap.
Qed.

Section Consecutive.
Variable l : list (nat * AcceptResult).
Hypothesis Hlen : Z.of_nat (length l) ≤ 65536.

(** X4. Up to 65536 accepts after [Init], with no disconnect in between, all
    succeed whatever is accepted and without any search: the [k]-th accepted
    session (counted from 0) is registered under identity [k] and carries it,
    its socket is the accepted one (none after an accept error), the count of
    online users is the number of accepts and the running index is that
    number, wrapped to 0 at 65536. *)
Theorem accepts_from_Init_get_consecutive_identities :
  ∃ w, run ((λ fa, OpAccept fa.1 fa.2) <$> l) Init_world = Some w
       ∧ result (GetOnlineUsers w) = Z.of_nat (length l)
       ∧ userIdx w = u16.wrap (Z.of_nat (length l))
       ∧ (∀ i, is_Some (clients w !! i) ↔ 0 ≤ i < Z.of_nat (length l))
       ∧ (∀ (k : nat) fa, l !! k = Some fa →
            clients w !! Z.of_nat k = Some k
            ∧ UserIdx (deref w k) = Z.of_nat k
            ∧ socket (deref w k) = accepted_socket fa.2).
Proof.
  destruct (accepts_from_Init l Hlen)
    as (w & Hrun & Hnext & Hidx & Hsize & Hcl & Hheap).
  exists w. split_and!; try done.
  - rewrite GetOnlineUsers_run. unfold result. cbn. by rewrite Hsize.
  - intros i. rewrite Hcl. case_decide; split; try done; try by eauto.
  - intros k fa Hk. apply lookup_lt_Some in Hk as Hlt.
    rewrite Hcl, decide_True by lia. rewrite Nat2Z.id.
    by rewrite (Hheap k fa Hk).
Qed.

End Consecutive.

Section AcceptError.
Variables (w : World) (fuel : nat) (msg : string) (p : ptr).
Hypothesis Hacc : result (Init_accept fuel (AcceptErr msg) w) = Accepted p.

(** X5. When [l.Accept()] fails, the loop logs the error and goes on with
    the rest of its body: whenever that pass ends with a registration, the
    state has a new session without a socket, registered under an identity
    that was free, announced by a connect event and started; the error line is
    the first thing in the trace and the session is not closed. *)
Theorem failed_accept_still_registers_a_session :
  let r := Init_accept fuel (AcceptErr msg) w in
  let s := deref (final r) p in
  socket s = None ∧ GetIp s = "" ∧
  clients w !! UserIdx s = None ∧
  clients (final r) !! UserIdx s = Some p ∧
  result (GetOnlineUsers (final r)) = result (GetOnlineUsers w) + 1 ∧
  ∃ tr, trace r = EvLogError ("Error accepting: " +:+ msg) [] :: tr
        ∧ EvConnect p ∈ tr ∧ EvStart p ∈ tr ∧ EvClose p ∉ tr.
Proof.
  cbn zeta.
  destruct (Init_accept_run fuel (AcceptErr msg) w) as (d & _ & _ & Hcase).
  cbn zeta in Hcase.
  destruct Hcase as [(Hfree & Hres & Hfin & Htr) | (_ & _ & Hspin & _)];
    [|congruence].
  assert (p = next w) as -> by congruence.
  rewrite Hfin, Htr, !GetOnlineUsers_run. unfold deref, accepted_world, result.
  cbn [heap clients fst snd accept_log app].
  rewrite fn_lookup_alter, fn_lookup_insert, lookup_insert_eq.
  cbn [socket UserIdx with_UserIdx Session_new accepted_socket GetIp].
  rewrite map_size_insert_None by done.
  split_and!; [done.. | lia |].
  eexists. split; [done|].
  destruct (decide (d = 0%nat)); cbn; rewrite !elem_of_cons;
    split_and!; try tauto.
  all: intros H; repeat (destruct H as [H|H]; [done|]); by inversion H.
Qed.

End AcceptError.

Section AcceptDisconnect.
Variables (w : World) (fuel : nat) (a : AcceptResult) (p : ptr).
Hypothesis Hacc : result (Init_accept fuel a w) = Accepted p.

(** X6. A disconnect event for a session that an accept has just registered
    undoes the registration: the map is again what it was before the accept
    and no older session has been touched.  The running index is not moved
    back: it stays behind the identity that was handed out. *)
Theorem accept_then_disconnect_restores_map :
  let w1 := final (Init_accept fuel a w) in
  let w2 := final (onClientDisconnect (ArgSession p) w1) in
  clients w2 = clients w ∧
  (∀ q, q ≠ p → deref w2 q = deref w q) ∧
  userIdx w2 = u16.incr (UserIdx (deref w1 p)).
Proof.
  cbn zeta.
  apply Init_accept_accepted in Hacc as (-> & k & tr & Hfree & -> & _).
  rewrite onClientDisconnect_run. unfold final, deref, accepted_world.
  cbn [fst snd heap next clients userIdx].
  rewrite fn_lookup_alter, fn_lookup_insert. cbn [UserIdx with_UserIdx].
  rewrite delete_insert_id by done. split_and!; try done.
  intros q Hq. by rewrite fn_lookup_alter_ne, fn_lookup_insert_ne.
Qed.

End AcceptDisconnect.

Section VerifyThenIsOnline.
Variables (ops : list Op) (w : World) (i k : Z) (ip : string) (db_idx : Z).
Variables (INVALID_USER_INDEX : Z) (order : list (Z * ptr)).
Hypothesis Hrun : run ops Init_world = Some w.
Hypothesis Hverified : result (VerifyUser i k ip db_idx w) = true.
Hypothesis Hothers :
  ∀ j q, clients w !! j = Some q → j ≠ i →
         online_as db_idx (deref w q) = false.
Hypothesis Horder :
  range_order (final (VerifyUser i k ip db_idx w)) order.


End VerifyThenIsOnline.

Lemma CloseUser_closes_registered (w : World) (order : list (Z * ptr)) (i : Z) :
  registry_inv w → range_order w order →
  match clients w !! i with
  | Some p =>
      CloseUser order i w
      = (true,
         mkWorld (alter (with_Connected false) p (heap w)) (next w)
           (clients w) (userIdx w),
         [EvRLock; EvClose p; EvRUnlock])
  | None => CloseUser order i w = (false, w, [EvRLock; EvRUnlock])
  end.
Proof.
  intros [Hentry _ _] Horder. mrun.
  destruct (find _ order) as [[j q]|] eqn:Hfind; cbn.
  - apply find_some in Hfind as [Hin Hq].
    apply bool_decide_eq_true in Hq. cbn in Hq.
    apply list_elem_of_In, (elem_of_range_order w order) in Hin; [|done].
    destruct (Hentry j q Hin) as [_ Hj]. unfold deref in Hj.
    assert (j = i) as -> by congruence. by rewrite Hin.
  - destruct (clients w !! i) as [p|] eqn:Hi; [|done].
    pose proof (find_none _ _ Hfind (i, p)) as Hno. cbn in Hno.
    destruct (Hentry i p Hi) as [_ Hp]. unfold deref in Hp.
    rewrite bool_decide_true in Hno by done. discriminate Hno.
    by apply list_elem_of_In, (elem_of_range_order w order).
Qed.

Section CloseThenSend.
Variables (ops : list Op) (w : World) (order : list (Z * ptr)).
Variables (i : Z) (writer : Writer).
Hypothesis Hrun : run ops Init_world = Some w.
Hypothesis Horder : range_order w order.

(** X8. In a state the registry can be in, [CloseUser i] returns [true]
    exactly when a session is registered under [i]; it then closes that
    session and no other, and leaves it in the registry, where a following
    [SendToUser i] returns [false] and sends nothing.  When it returns
    [false] nothing is closed and nothing has changed. *)
Theorem CloseUser_then_SendToUser :
  let c := CloseUser order i w in
  (result c = true ↔ is_Some (clients w !! i)) ∧
  (∀ p, clients w !! i = Some p →
        trace c = [EvRLock; EvClose p; EvRUnlock]
        ∧ Connected (deref (final c) p) = false
        ∧ (∀ q, q ≠ p → deref (final c) q = deref w q)) ∧
  (result c = false → final c = w ∧ trace c = [EvRLock; EvRUnlock]) ∧
  clients (final c) = clients w ∧
  result (SendToUser i writer (final c)) = false ∧
  sends (trace (SendToUser i writer (final c))) = [].
Proof.
  pose proof (CloseUser_closes_registered w order i
                (run_inv _ _ _ Init_world_inv Hrun) Horder) as Hclose.
  cbn zeta. destruct (clients w !! i) as [p|] eqn:Hi; rewrite Hclose.
  - unfold result at 1 2, final, trace at 1 2, deref. cbn [fst snd heap clients].
    split_and!; try done.
    + intros q [= <-]. rewrite fn_lookup_alter. split_and!; try done.
      intros q Hq. by rewrite fn_lookup_alter_ne.
    + mrun. rewrite Hi. cbn. by rewrite fn_lookup_alter.
    + mrun. rewrite Hi. cbn. by rewrite fn_lookup_alter.
  - unfold result at 1 2, final, trace at 1 2. cbn [fst snd].
    assert (SendToUser i writer w = (false, w, [EvRLock; EvRUnlock])) as ->.
    { mrun. by rewrite Hi. }
    split_and!; done.
Qed.

End CloseThenSend.

(** ** Lock discipline *)

Lemma lock_run_sends (l : list (ptr * Writer)) (tr : list Event) (h : Held) :
  lock_run (((λ x, EvSend x.1 x.2) <$> l) ++ tr) h = lock_run tr h.
Proof. induction l as [|[p pkt] l IH]; cbn; done. Qed.

Section Locks.
Variables (w : World) (order : list (Z * ptr)).
Variables (idx i k db_idx account INVALID_USER_INDEX : Z) (ip : string).
Variables (writer : Writer) (session : option ptr) (event : EventArg).
Variables (fuel : nat) (a : AcceptResult).

(** X9. Every operation of the registry that returns has released what it
    took of the lock, never unlocks what it does not hold and never takes the
    lock again while it holds it: the lookups, the sends and [CloseUser] take
    and release the read lock once, [VerifyUser] and the disconnect handler
    the write lock once, an accept that registers a session takes the two in
    turn.  An accept that is still searching holds the write lock, and only
    that. *)
Theorem registry_operations_release_the_lock :
  let free := nothing_held in
  lock_run (trace (GetOnlineUsers w)) free = Some free ∧
  lock_run (trace (GetSession order idx w)) free = Some free ∧
  lock_run (trace (VerifyUser i k ip db_idx w)) free = Some free ∧
  lock_run (trace (SendToUser i writer w)) free = Some free ∧
  lock_run (trace (SendToAll order writer w)) free = Some free ∧
  lock_run (trace (SendToAllExcept order writer session w)) free = Some free ∧
  lock_run (trace (IsOnline INVALID_USER_INDEX order account w)) free
  = Some free ∧
  lock_run (trace (CloseUser order i w)) free = Some free ∧
  lock_run (trace (onClientDisconnect event w)) free = Some free ∧
  (∀ p, result (Init_accept fuel a w) = Accepted p →
        lock_run (trace (Init_accept fuel a w)) free = Some free) ∧
  (∀ p, result (Init_accept fuel a w) = Spinning p →
        lock_run (trace (Init_accept fuel a w)) free = Some (mkHeld 0 true)).
Proof.
  cbn zeta. split_and!.
  - done.
  - mrun. by destruct (find _ order) as [[? ?]|].
  - mrun. destruct (clients w !! i) as [p|]; cbn; [|done].
    by destruct (verify_ok _ _ _).
  - mrun. destruct (clients w !! i) as [p|]; cbn; [|done].
    by destruct (Connected _).
  - rewrite SendToAll_run. unfold trace. cbn [snd lock_run lock_step].
    cbn [writing nothing_held]. by rewrite lock_run_sends.
  - rewrite SendToAllExcept_run. unfold trace. cbn [snd lock_run lock_step].
    cbn [writing nothing_held]. by rewrite lock_run_sends.
  - mrun. by destruct (find _ order) as [[? ?]|].
  - mrun. by destruct (find _ order) as [[? ?]|].
  - by destruct event.
  - intros p Hacc.
    destruct (Init_accept_run fuel a w) as (d & _ & _ & Hcase).
    cbn zeta in Hcase.
    destruct Hcase as [(_ & _ & _ & ->) | (_ & _ & Hspin & _)];
      [|congruence].
    by destruct a, (decide (d = 0%nat)).
  - intros p Hspin.
    destruct (Init_accept_run fuel a w) as (d & _ & _ & Hcase).
    cbn zeta in Hcase.
    destruct Hcase as [(_ & Hacc & _) | (_ & _ & _ & _ & ->)];
      [congruence|].
    by destruct a.
Qed.

End Locks.

(** * Properties of the packet handlers *)

Import packet links.

Lemma with_CharacterList_same (s : Session) :
  with_CharacterList (CharacterList (Data s)) s = s.
Proof. by destruct s as [? ? ? ? [] ?]. Qed.

Lemma Initialized_effect `{Backend} (w : World) (session : ptr)
    (reader : Reader) :
  let s := deref w session in
  let charId := ReadInt32 reader in
  let empty := bool_decide (length (CharacterList (Data s)) = 0%nat) in
  let known := if empty then LoadCharacters (AccountId (Data s)) ServerId
               else CharacterList (Data s) in
  let c := fetch_character known charId in
  let pre := if empty then [EvRPC "LoadCharacters"] else [] in
  let r := Initialized session reader w in
  clients (final r) = clients w ∧ userIdx (final r) = userIdx w ∧
  next (final r) = next w ∧
  (∀ q, q ≠ session → deref (final r) q = deref w q) ∧
  ((final r = w
    ∧ (∃ msg args, trace r = [EvLogError msg args])
    ∧ (Verified (Data s) = false ∨ LoggedIn (Data s) = false
       ∨ (∀ ctx, DataEx s ≠ DataEx_context ctx)
       ∨ Z.shiftr charId 3 ≠ AccountId (Data s)))
   ∨ (Verified (Data s) = true ∧ LoggedIn (Data s) = true
      ∧ (∃ ctx, DataEx s = DataEx_context ctx)
      ∧ Z.shiftr charId 3 = AccountId (Data s)
      ∧ ((Id c ≠ charId
          ∧ deref (final r) session = with_CharacterList known s
          ∧ ∃ msg args, trace r = pre ++ [EvLogError msg args])
         ∨ (Id c = charId
            ∧ deref (final r) session
              = with_DataEx (DataEx_context (mkContext (Some c)))
                  (with_CharacterList known s)
            ∧ trace r
              = pre ++ [EvRPC "LoadCharacterData";
                        EvSend session
                          (InitializedPacket c
                             (LoadCharacterData ServerId (Id c)));
                        EvCtxLock session; EvCtxUnlock session])))).
Proof.
  cbn zeta. unfold Initialized. mrun.
  set (s := heap w session).
  destruct (Verified (Data s)) eqn:HV; cbn [negb orb];
    [|split_and!; try done; left; split_and!; eauto].
  destruct (LoggedIn (Data s)) eqn:HL; cbn [negb orb];
    [|split_and!; try done; left; split_and!; eauto].
  destruct (DataEx s) as [|ctx|] eqn:HX; cbn [DataEx_is_nil].
  - split_and!; try done. left. split_and!; eauto.
  - case_bool_decide as Hacc; cbn.
    { split_and!; try done. left. split_and!; eauto 6. }
    case_bool_decide as Hempty; cbn.
    + rewrite fn_lookup_alter. fold s.
      cbn [Data with_CharacterList with_Data CharacterList AccountId].
      case_bool_decide as Hid; cbn.
      * split_and!; try done.
        { intros q Hq. by rewrite fn_lookup_alter_ne. }
        right. split_and!; eauto. left. split_and!; try done.
        { by rewrite fn_lookup_alter. }
        eauto.
      * split_and!; try done.
        { intros q Hq. by rewrite !fn_lookup_alter_ne. }
        right. split_and!; eauto. right.
        split_and!; [done | | done].
        by rewrite !fn_lookup_alter.
    + fold s. case_bool_decide as Hid; cbn.
      * split_and!; try done.
        right. split_and!; eauto. left. split_and!; try done.
        { by rewrite with_CharacterList_same. }
        eauto.
      * split_and!; try done.
        { intros q Hq. by rewrite fn_lookup_alter_ne. }
        right. split_and!; eauto. right.
        split_and!; [done | | done].
        by rewrite fn_lookup_alter, with_CharacterList_same.
  - split_and!; try done. left. split_and!; eauto.
Qed.


Section InitializedReply.
Context `{Backend}.
Variables (w : World) (session : ptr) (reader : Reader).




End InitializedReply.

Lemma int32_small (z : Z) : - 2 ^ 31 ≤ z < 2 ^ 31 → int32 z = z.
Proof. unfold int32. intros Hz. rewrite Z.mod_small; lia. Qed.

Lemma int32_range (z : Z) : - 2 ^ 31 ≤ int32 z < 2 ^ 31.
Proof.
  unfold int32. pose proof (Z.mod_pos_bound (z + 2 ^ 31) (2 ^ 32)). lia.
Qed.

Section VerifyLinks.
Context `{LinkBackend}.
Variables (w : World) (session : ptr) (reader : VerifyLinksReader).

(** X13. [VerifyLinks] compares the magic key of the packet with the
    configured key converted to [int32].  When they differ it writes one line
    to the error log and does nothing else: no RPC call, no answer.  When they
    agree it makes one [UserVerify] call, with the session's address and
    account, and answers the session with the channel, the server and 1 or 0
    for the call's verdict.  In neither case does it change the state: the
    handler itself never sets [Verified]. *)
Theorem VerifyLinks_answers_with_the_verdict :
  let s := deref w session in
  let r := VerifyLinks session reader w in
  let verdict :=
    UserVerify
      (mkVerifyReq (r_timestamp reader) (r_count reader) (r_server reader)
         (r_channel reader) (GetIp s) (AccountId (Data s))) in
  final r = w ∧
  (r_magickey reader ≠ int32 MagicKey →
   sends (trace r) = [] ∧ (EvRPC "UserVerify" ∉ trace r)
   ∧ ∃ msg args, trace r = [EvLogError msg args]) ∧
  (r_magickey reader = int32 MagicKey →
   trace r
   = [EvRPC "UserVerify";
      EvSend session
        (mkWriter VERIFYLINKS
           [r_channel reader; r_server reader; if verdict then 1 else 0])]) ∧
  (- 2 ^ 31 ≤ MagicKey < 2 ^ 31 →
   (sends (trace r) ≠ [] ↔ r_magickey reader = MagicKey)).
Proof.
  cbn zeta. unfold VerifyLinks. mrun.
  case_bool_decide as Hkey; cbn.
  - split_and!; try done.
    + intros _. split_and!; [done| |eauto].
      intros Hin%list_elem_of_singleton. done.
    + intros Hrange. rewrite int32_small in Hkey by done. done.
  - split_and!; try done.
    + intros _. by destruct (UserVerify _).
    + intros Hrange. rewrite int32_small in Hkey by done.
      by destruct (UserVerify _).
Qed.

End VerifyLinks.

Lemma final_bind {A B} (m : M A) (f : A → M B) (w : World) :
  final ((m ≫= f) w) = final (f (result (m w)) (final (m w))).
Proof.
  unfold mbind, M_bind, final, result.
  destruct (m w) as [[x w1] t1]. cbn. by destruct (f x w1) as [[y w2] t2].
Qed.

Lemma handle_effect `{Backend} `{LinkBackend} (h : Handled) (w : World) :
  let w' := final (handle h w) in
  clients w' = clients w ∧ userIdx w' = userIdx w ∧ next w' = next w ∧
  ∀ p, socket (deref w' p) = socket (deref w p)
       ∧ UserIdx (deref w' p) = UserIdx (deref w p)
       ∧ AuthKey (deref w' p) = AuthKey (deref w p)
       ∧ Connected (deref w' p) = Connected (deref w p)
       ∧ Verified (Data (deref w' p)) = Verified (Data (deref w p))
       ∧ LoggedIn (Data (deref w' p)) = LoggedIn (Data (deref w p))
       ∧ AccountId (Data (deref w' p)) = AccountId (Data (deref w p)).
Proof.
  destruct h as [session reader | session reader | session reader];
    cbn [handle]; cbn zeta.
  - destruct (Initialized_effect w session reader)
      as (Hcl & Hidx & Hnext & Hframe & Hcase).
    cbn zeta in Hcase. split_and!; try done.
    intros p. destruct (decide (p = session)) as [->|Hne];
      [|by rewrite (Hframe p Hne)].
    destruct Hcase as
      [(-> & _) | (_ & _ & _ & _ & [(_ & -> & _) | (_ & -> & _)])];
      done.
  - done.
  - assert (final (VerifyLinks session reader w) = w) as ->; [|done].
    unfold VerifyLinks. mrun. case_bool_decide; done.
Qed.

Section Handlers.
Context `{Backend} `{LinkBackend}.
Variables (hs : list Handled) (w : World).

(** X14. However many packets [Initialized], [Uninitialze] and [VerifyLinks]
    handle, for whatever sessions, they never touch the registry (its map,
    its running index) and never change the socket, the identity, the key,
    the connected flag, the verified and logged-in flags or the account of any
    session; what the registry keeps true of itself stays true. *)
Theorem handlers_leave_registry_and_identities_alone :
  let w' := final (for_each hs handle w) in
  clients w' = clients w ∧ userIdx w' = userIdx w ∧
  (∀ p, socket (deref w' p) = socket (deref w p)
        ∧ UserIdx (deref w' p) = UserIdx (deref w p)
        ∧ AuthKey (deref w' p) = AuthKey (deref w p)
        ∧ Connected (deref w' p) = Connected (deref w p)
        ∧ Verified (Data (deref w' p)) = Verified (Data (deref w p))
        ∧ LoggedIn (Data (deref w' p)) = LoggedIn (Data (deref w p))
        ∧ AccountId (Data (deref w' p)) = AccountId (Data (deref w p))) ∧
  (registry_inv w → registry_inv w').
Proof.
  cbn zeta.
  assert (∀ v, next (final (for_each hs handle v)) = next v
               ∧ clients (final (for_each hs handle v)) = clients v
               ∧ userIdx (final (for_each hs handle v)) = userIdx v
               ∧ ∀ p,
          socket (deref (final (for_each hs handle v)) p) = socket (deref v p)
          ∧ UserIdx (deref (final (for_each hs handle v)) p)
            = UserIdx (deref v p)
          ∧ AuthKey (deref (final (for_each hs handle v)) p)
            = AuthKey (deref v p)
          ∧ Connected (deref (final (for_each hs handle v)) p)
            = Connected (deref v p)
          ∧ Verified (Data (deref (final (for_each hs handle v)) p))
            = Verified (Data (deref v p))
          ∧ LoggedIn (Data (deref (final (for_each hs handle v)) p))
            = LoggedIn (Data (deref v p))
          ∧ AccountId (Data (deref (final (for_each hs handle v)) p))
            = AccountId (Data (deref v p))) as Hall.
  { induction hs as [|h hs' IH]; intros v; [done|].
    cbn [for_each]. rewrite final_bind.
    destruct (handle_effect h v) as (Hcl & Hidx & Hnext & Hfields).
    destruct (IH (final (handle h v))) as (Hnext' & Hcl' & Hidx' & Hfields').
    split_and!; [congruence..|].
    intros p. destruct (Hfields p) as (? & ? & ? & ? & ? & ? & ?).
    destruct (Hfields' p) as (? & ? & ? & ? & ? & ? & ?).
    split_and!; congruence. }
  destruct (Hall w) as (Hnext & Hcl & Hidx & Hfields).
  split_and!; try done.
  intros [Hentry Hindex Hkeys]. split.
  - intros i p. rewrite Hcl, Hnext. intros Hi.
    destruct (Hentry i p Hi) as [Hlt Hid]. split; [done|].
    destruct (Hfields p) as (_ & -> & _). done.
  - by rewrite Hidx.
  - intros i p. rewrite Hcl. apply Hkeys.
Qed.

End Handlers.

(** * Properties of the login server's notification packets *)

Import wire.

Lemma payload_size_app (l1 l2 : list Field) :
  payload_size (l1 ++ l2) = payload_size l1 + payload_size l2.
Proof.
  unfold payload_size. induction l1 as [|f l1 IH]; cbn; [done|].
  rewrite IH. lia.
Qed.

Lemma channels_size (l : list ChannelItem) :
  payload_size (concat (channel_calls <$> l)) = 37 * Z.of_nat (length l).
Proof.
  induction l as [|c l IH]; [done|].
  rewrite fmap_cons, concat_cons, payload_size_app, IH.
  cbn [length]. unfold payload_size. cbn. lia.
Qed.

Lemma server_size (sv : ServerItem) :
  payload_size (server_calls sv) = 7 + 37 * Z.of_nat (length (sv_List sv)).
Proof.
  unfold server_calls. rewrite payload_size_app, channels_size.
  unfold payload_size. cbn. lia.
Qed.

Section ServerSateSize.
Variables (SERVERSTATE : Z) (s : list ServerItem).

(** X15. The payload that [ServerSate] builds has one count byte, seven
    bytes for each server and 37 bytes for each channel of each server, and
    its opcode is the one given to [NewWriter]. *)
Theorem ServerSate_payload_size :
  code (ServerSate SERVERSTATE s) = SERVERSTATE ∧
  payload_size (calls (ServerSate SERVERSTATE s))
  = 1 + foldr (λ sv n, 7 + 37 * Z.of_nat (length (sv_List sv)) + n) 0 s.
Proof.
  split; [done|]. unfold ServerSate. cbn [calls].
  change (payload_size (?f :: ?l)) with (Field_size f + payload_size l).
  cbn [Field_size]. f_equal.
  induction s as [|sv l IH]; [done|].
  rewrite fmap_cons, concat_cons, payload_size_app, server_size, IH.
  cbn [foldr]. lia.
Qed.

End ServerSateSize.

Lemma read_channels_calls (l : list ChannelItem) (rest : list Field) :
  read_channels (length l) (concat (channel_calls <$> l) ++ rest)
  = Some (l, rest).
Proof.
  induction l as [|[id cur max ip port ty] l IH]; [done|].
  cbn [length fmap list_fmap concat]. cbn [read_channels].
  unfold channel_calls at 1. cbn [app read_channel].
  cbn [ch_Id ch_CurrentUsers ch_MaxUsers ch_Ip ch_Port ch_Type].
  change (list_fmap _ _ channel_calls l) with (channel_calls <$> l).
  by rewrite IH.
Qed.

Lemma byte_value_count (n : nat) :
  (n < 256)%nat → Z.to_nat (byte_value (Z.of_nat n)) = n.
Proof. intros Hn. unfold byte_value. rewrite Z.mod_small; lia. Qed.

Lemma read_servers_calls (s : list ServerItem) (rest : list Field) :
  (∀ sv, sv ∈ s → (length (sv_List sv) < 256)%nat) →
  read_servers (length s) (concat (server_calls <$> s) ++ rest)
  = Some (s, rest).
Proof.
  induction s as [|[id hot chans] s IH]; intros Hchannels; [done|].
  cbn [length fmap list_fmap concat]. cbn [read_servers].
  change (list_fmap _ _ server_calls s) with (server_calls <$> s).
  unfold server_calls at 1. cbn [sv_Id sv_Hot sv_List].
  rewrite <- !app_assoc. cbn [app read_server].
  rewrite byte_value_count.
  - rewrite read_channels_calls, IH; [done|].
    intros sv Hsv. apply Hchannels. by apply list_elem_of_further.
  - apply (Hchannels (mkServerItem id hot chans)), list_elem_of_here.
Qed.

Section ServerSateRead.
Variables (SERVERSTATE : Z) (s : list ServerItem).

(** X16. The count bytes that [ServerSate] writes agree with what follows
    them: as long as the number of servers and the number of channels of each
    server fit a byte, reading the payload back by its counts gives the list
    the packet was built from (the ids, the hot flag, and for each channel
    the id, the current and maximal users, the address, the port and the
    type), with nothing left over. *)
Theorem ServerSate_reads_back :
  (length s < 256)%nat →
  (∀ sv, sv ∈ s → (length (sv_List sv) < 256)%nat) →
  read_ServerState (calls (ServerSate SERVERSTATE s)) = Some s.
Proof.
  intros Hservers Hchannels.
  unfold ServerSate, read_ServerState. cbn [calls].
  rewrite byte_value_count by done.
  rewrite <- (app_nil_r (concat _)). by rewrite read_servers_calls.
Qed.

End ServerSateRead.

Section URLToClient.
Variables (URLTOCLIENT : Z) (cfg : URLConfig).


End URLToClient.

(** * The further properties on concrete runs *)

Import scenario_more.

Lemma started_run : run started_ops Init_world = Some started_world.
Proof. vm_compute. reflexivity. Qed.

Lemma GetSession_witness :
  result (GetSession (map_to_list (clients churned)) 1 churned) = Some 1%nat
  ∧ result (GetSession (map_to_list (clients churned)) 0 churned) = None.
Proof.
  split.
  - refine (eq_trans (proj1 (GetSession_agrees_with_map churn_ops churned
                               (map_to_list (clients churned)) 1 _ _)) _).
    + vm_compute. reflexivity.
    + unfold range_order. reflexivity.
    + vm_compute. reflexivity.
  - refine (eq_trans (proj1 (GetSession_agrees_with_map churn_ops churned
                               (map_to_list (clients churned)) 0 _ _)) _).
    + vm_compute. reflexivity.
    + unfold range_order. reflexivity.
    + vm_compute. reflexivity.
Defined.

Lemma GetOnlineUsers_witness :
  0 ≤ result (GetOnlineUsers churned) ≤ 65536.
Proof.
  apply (GetOnlineUsers_counts_sessions churn_ops churned).
  vm_compute. reflexivity.
Defined.

Lemma online_count_witness :
  result (GetOnlineUsers (final (onClientDisconnect (ArgSession 1%nat)
                                   churned)))
  = result (GetOnlineUsers churned) - 1.
Proof.
  apply (online_count_follows_accept_and_disconnect churned 0
           (AcceptOk conn0) 1%nat).
  vm_compute. eexists. reflexivity.
Defined.

Lemma consecutive_witness :
  ∃ w, run [OpAccept 0 (AcceptOk conn0); OpAccept 3 (AcceptErr "timeout")]
         Init_world = Some w
       ∧ result (GetOnlineUsers w) = 2.
Proof.
  destruct (accepts_from_Init_get_consecutive_identities
              [(0%nat, AcceptOk conn0); (3%nat, AcceptErr "timeout")])
    as (w & Hrun & Hcount & _).
  - cbn. lia.
  - exists w. split; [exact Hrun | exact Hcount].
Defined.

Lemma failed_accept_witness :
  socket (deref (final (Init_accept 0 (AcceptErr "timeout") churned)) 3%nat)
  = None.
Proof.
  apply (failed_accept_still_registers_a_session churned 0 "timeout" 3%nat).
  vm_compute. reflexivity.
Defined.

Lemma accept_disconnect_witness :
  clients (final (onClientDisconnect (ArgSession 3%nat)
                    (final (Init_accept 0 (AcceptOk conn0) churned))))
  = clients churned.
Proof.
  apply (accept_then_disconnect_restores_map churned 0 (AcceptOk conn0)
           3%nat).
  vm_compute. reflexivity.
Defined.


Lemma CloseUser_witness :
  result (CloseUser (map_to_list (clients started_world)) 0 started_world)
  = true
  ∧ result (SendToUser 0 pkt0
              (final (CloseUser (map_to_list (clients started_world)) 0
                        started_world))) = false.
Proof.
  pose proof (CloseUser_then_SendToUser started_ops started_world
                (map_to_list (clients started_world)) 0 pkt0
                ltac:(vm_compute; reflexivity)
                ltac:(unfold range_order; reflexivity))
    as (Hiff & _ & _ & _ & Hsend & _).
  split; [|exact Hsend].
  apply Hiff. vm_compute. eexists. reflexivity.
Defined.

Lemma lock_witness :
  lock_run (trace (Init_accept 0 (AcceptOk conn0) churned)) nothing_held
  = Some nothing_held.
Proof.
  apply (registry_operations_release_the_lock churned [] 0 0 0 0 0 0 ""
           pkt0 None ArgOther 0 (AcceptOk conn0)) with (p := 3%nat).
  vm_compute. reflexivity.
Defined.




Lemma VerifyLinks_witness :
  trace (@VerifyLinks links0 1%nat (mkVerifyLinksReader 0 0 2 1 12345)
           verified_world)
  = [EvRPC "UserVerify"; EvSend 1%nat (mkWriter 141 [2; 1; 1])].
Proof.
  apply (@VerifyLinks_answers_with_the_verdict links0 verified_world 1%nat
           (mkVerifyLinksReader 0 0 2 1 12345)).
  vm_compute. reflexivity.
Defined.

Lemma handlers_witness :
  registry_inv
    (final (for_each
              [HInitialized 1%nat (mkReader 56);
               HUninitialze 1%nat (mkUninitialzeReader 0 0 0);
               HVerifyLinks 1%nat (mkVerifyLinksReader 0 0 2 1 12345)]
              (@handle backend1 links0) playing_world)).
Proof.
  apply (@handlers_leave_registry_and_identities_alone backend1 links0).
  apply (alter_heap_inv verified_world
           (with_DataEx (DataEx_context (mkContext None))) 1%nat).
  - intros s. reflexivity.
  - exact (run_inv _ _ _ Init_world_inv verified_run).
Defined.

Lemma ServerSate_witness :
  read_ServerState (calls (ServerSate 121 servers0)) = Some servers0.
Proof.
  apply (ServerSate_reads_back 121 servers0).
  - cbn. lia.
  - intros sv Hsv. apply elem_of_cons in Hsv as [->|Hsv]; [cbn; lia|].
    apply list_elem_of_singleton in Hsv as ->. cbn. lia.
Defined.
